(** * SpaceX launch records dashboard: the two chart updaters

    A shallow embedding of [gf-ibm-ds-dash.py].  The module-level data frame
    [spacex_df] is a list of launch records in file order; the two Dash
    callbacks [get_pie_chart] and [get_scatter_chart] become functions from
    the data frame and the control values to the figure they hand to the
    page.  The calls into [plotly.express] are embedded as far as the
    figures depend on them: which rows become labels, values and points, in
    which order, and with which colours. *)

From Stdlib Require Import ZArith Lia Sorted.
From stdpp Require Import base numbers list strings gmap.

Local Open Scope Z_scope.

(** ** Data model *)

(** One row of [spacex_launch_dash.csv], restricted to the four columns the
    callbacks read: ['Launch Site'], ['Payload Mass (kg)'], ['class'] and
    ['Booster Version Category'].  Payload masses are taken to be finite
    numbers and are only ever compared; ['class'] is the integer column of
    the file. *)
Record LaunchRecord := mkLaunch {
  launch_site : string;
  payload_mass : Z;
  class : Z;
  booster_version_category : string
}.

Abbreviation DataFrame := (list LaunchRecord).

(** The outcome column is binary in the data set: 1 is a success, 0 a
    failure. *)
Definition binary_class (df : DataFrame) : Prop :=
  Forall (fun r => class r = 0 \/ class r = 1) df.

(** Exceptions.  [IndexError] is what Python raises for a subscript out of
    range, [TypeError] for an operation on an object of the wrong kind and
    [ValueError] is what plotly raises for a property value it does not
    accept; [InvalidSelectionError] and [InvalidRangeError] are the error
    kinds the design document names, no statement of the program raises
    them. *)
Inductive exception :=
  | IndexError
  | TypeError
  | ValueError
  | InvalidSelectionError
  | InvalidRangeError.

Inductive result (A : Type) :=
  | Ok (a : A)
  | Raise (e : exception).
Arguments Ok {A} a.
Arguments Raise {A} e.

(** [px.colors.qualitative.Plotly], the ten colours of plotly's default
    qualitative palette. *)
Definition Plotly : list string :=
  ["#636EFA"; "#EF553B"; "#00CC96"; "#AB63FA"; "#FFA15A";
   "#19D3F3"; "#FF6692"; "#B6E880"; "#FF97FF"; "#FECB52"]%string.

(** The colorway of plotly's default template, the sequence plotly express
    takes colours from when [color_discrete_sequence] is not given: the same
    ten colours, some spelled in lower case. *)
Definition colorway : list string :=
  ["#636efa"; "#EF553B"; "#00cc96"; "#ab63fa"; "#FFA15A";
   "#19d3f3"; "#FF6692"; "#B6E880"; "#FF97FF"; "#FECB52"]%string.

(** ** pandas helpers *)

(** [Series.unique()]: the distinct values in order of first appearance. *)
Fixpoint unique `{EqDecision A} (l : list A) : list A :=
  match l with
  | [] => []
  | x :: l' => x :: filter (fun y => y <> x) (unique l')
  end.

(** A stable sort by decreasing key: among equal keys the earlier element
    stays first. *)
Fixpoint insert_desc {A} (key : A -> Z) (x : A) (l : list A) : list A :=
  match l with
  | [] => [x]
  | y :: l' => if decide (key y <= key x) then x :: y :: l'
               else y :: insert_desc key x l'
  end.

Definition sort_desc {A} (key : A -> Z) (l : list A) : list A :=
  foldr (insert_desc key) [] l.

(** Number of occurrences, as a Python integer. *)
Definition count_occ `{EqDecision A} (x : A) (l : list A) : Z :=
  Z.of_nat (length (filter (fun y => y = x) l)).

(** [Series.value_counts().reset_index()]: one row per distinct value with
    the number of its occurrences, most frequent first. *)
Definition value_counts (s : list Z) : list (Z * Z) :=
  sort_desc snd (map (fun v => (v, count_occ v s)) (unique s)).

(** [Series.max()] and [Series.min()]; pandas answers NaN on an empty
    column, here [None]. *)
Definition series_max (s : list Z) : option Z :=
  match s with
  | [] => None
  | x :: s' => Some (foldl Z.max x s')
  end.

Definition series_min (s : list Z) : option Z :=
  match s with
  | [] => None
  | x :: s' => Some (foldl Z.min x s')
  end.

(** Python's [sorted] on strings. *)
Fixpoint insert_sorted (x : string) (l : list string) : list string :=
  match l with
  | [] => [x]
  | y :: l' => if String.ltb x y then x :: y :: l' else y :: insert_sorted x l'
  end.

Definition sorted (l : list string) : list string :=
  foldr insert_sorted [] l.

(** ** Figures *)

(** A cell of a label column: a string, or pandas' NaN. *)
Abbreviation label := (option string) (only parsing).
Abbreviation Name s := (Some s%string) (only parsing).
Abbreviation NaN := (@None string) (only parsing).

(** A pie trace.  Plotly keeps [labels], [values] and [marker.colors] as
    parallel arrays of one length; a row here is one index of the three.
    [row_color] is [None] when the trace carries no [marker.colors]. *)
Record PieRow := mkRow {
  row_label : label;
  row_value : Z;
  row_color : option string
}.

Record PieFigure := mkPie {
  pie_rows : list PieRow;
  pie_sort : bool;
  pie_title : string
}.

(** [process_dataframe_pie] of plotly express: with an order given for the
    names column, the rows are rearranged label by label, the listed labels
    first and then the others as they first appear. *)
Definition reorder_rows (order_in : list label) (frame : list (label * Z))
  : list (label * Z) :=
  let uniques := unique (map fst frame) in
  let order := filter (fun x => x ∈ uniques) (unique (order_in ++ uniques)) in
  flat_map (fun l => filter (fun row => fst row = l) frame) order.

(** The discrete colours of a pie: each label is looked up in a copy of
    [color_discrete_map]; a label that is missing takes the next colour of
    the default sequence and is remembered. *)
Fixpoint assign_colors (mapping : gmap label string) (cats : list label)
  : list string :=
  match cats with
  | [] => []
  | cat :: cats' =>
      match mapping !! cat with
      | Some c => c :: assign_colors mapping cats'
      | None =>
          let c := default ""%string
                     (colorway !! (size mapping mod length colorway)%nat) in
          c :: assign_colors (<[cat := c]> mapping) cats'
      end
  end.

(** [px.pie(frame, values=.., names=.., title=..)] with, optionally,
    [color=names, color_discrete_map=..] and [category_orders={names: ..}].
    The slices are left to be sorted by the page unless an order is given. *)
Definition px_pie (frame : list (label * Z))
    (color_discrete_map : option (gmap label string))
    (category_orders : list label) (title : string) : PieFigure :=
  let frame' := match category_orders with
                | [] => frame
                | _ => reorder_rows category_orders frame
                end in
  let colors := match color_discrete_map with
                | Some m => map Some (assign_colors m (map fst frame'))
                | None => map (fun _ => None) frame'
                end in
  {| pie_rows := zip_with (fun row c => mkRow (fst row) (snd row) c) frame' colors;
     pie_sort := match category_orders with [] => true | _ => false end;
     pie_title := title |}.

(** What the page draws for a pie trace. *)
Record Slice := mkSlice {
  slice_label : label;
  slice_value : Z;
  slice_color : option string
}.

(** Rows with the same label are one sector (plotly on [labels]: "if
    labels entries are duplicated, we sum associated values"); the colour is
    the first one given for the label. *)
Fixpoint add_row (r : PieRow) (cd : list Slice) : list Slice :=
  match cd with
  | [] => [mkSlice (row_label r) (row_value r) (row_color r)]
  | s :: cd' =>
      if decide (slice_label s = row_label r)
      then mkSlice (slice_label s) (slice_value s + row_value r)
             (match slice_color s with
              | Some c => Some c
              | None => row_color r
              end) :: cd'
      else s :: add_row r cd'
  end.

Definition pie_calc (rows : list PieRow) : list Slice :=
  foldl (fun cd r => add_row r cd) [] rows.

(** Sectors whose sum is negative are dropped; with [sort] the sectors go
    from largest to smallest. *)
Definition pie_slices (fig : PieFigure) : list Slice :=
  let cd := filter (fun s => 0 <= slice_value s) (pie_calc (pie_rows fig)) in
  if pie_sort fig then sort_desc slice_value cd else cd.

(** A scatter trace: the points of one colour group.  [trace_points] holds
    one (x, y, marker size) triple per point. *)
Record Point := mkPoint {
  point_x : Z;
  point_y : Z;
  point_size : Z
}.

Record ScatterTrace := mkTrace {
  trace_name : string;
  marker_color : string;
  trace_points : list Point
}.

Record ScatterFigure := mkScatter {
  traces : list ScatterTrace;
  scatter_title_text : string;
  scatter_height : Z;
  yaxis_title_text : string;
  yaxis_tickvals : list Z;
  yaxis_ticktext : list string
}.

(** x and size are the payload mass, y is the outcome. *)
Definition point_of (r : LaunchRecord) : Point :=
  mkPoint (payload_mass r) (class r) (payload_mass r).

(** One trace per booster category of the frame, in order of first
    appearance.  The colour of a group is looked up in a copy of
    [color_discrete_map]; a category that is missing there takes the next
    colour of the default sequence and is remembered. *)
Fixpoint scatter_traces (frame : DataFrame) (val_map : gmap string string)
    (groups : list string) : list ScatterTrace :=
  match groups with
  | [] => []
  | val :: groups' =>
      let val_map' :=
        match val_map !! val with
        | Some _ => val_map
        | None => <[val := default ""%string
                      (colorway !! (size val_map mod length colorway)%nat)]> val_map
        end in
      mkTrace val (default ""%string (val_map' !! val))
        (map point_of
           (filter (fun r => booster_version_category r = val) frame))
      :: scatter_traces frame val_map' groups'
  end.

(** The figure plotly express puts together for a frame: its traces, the
    title, the height and the y axis named after the column. *)
Definition scatter_figure (frame : DataFrame)
    (color_discrete_map : gmap string string) (title : string) : ScatterFigure :=
  {| traces := scatter_traces frame color_discrete_map
                 (unique (map booster_version_category frame));
     scatter_title_text := title;
     scatter_height := 400;
     yaxis_title_text := "class";
     yaxis_tickvals := [];
     yaxis_ticktext := [] |}.

(** The dtype pandas gives a column of whole numbers: 64-bit signed when
    every entry fits, 64-bit unsigned when none is negative and every entry
    fits, and otherwise a column of Python objects. *)
Inductive dtype :=
  | int64
  | uint64
  | object_dtype.

#[global] Instance dtype_eq_dec : EqDecision dtype.
Proof. solve_decision. Defined.

Definition column_dtype (s : list Z) : dtype :=
  if decide (Forall (fun x => - 9223372036854775808 <= x
                              /\ x < 9223372036854775808) s) then int64
  else if decide (Forall (fun x => 0 <= x /\ x < 18446744073709551616) s)
  then uint64
  else object_dtype.

(** What plotly accepts as [marker.size]: numbers that are not negative.
    The entries of an object column are not taken for numbers. *)
Definition valid_marker_size (size_dtype : dtype) (p : Point) : Prop :=
  size_dtype <> object_dtype /\ 0 <= point_size p.

(** [px.scatter(frame, x='Payload Mass (kg)', y='class',
    color='Booster Version Category', size='Payload Mass (kg)', title=..,
    color_discrete_map=.., height=400)].  Each trace is validated when it is
    made; a marker size that plotly does not accept raises.  [size_dtype] is
    the dtype of the size column, which a selection of rows keeps. *)
Definition px_scatter (frame : DataFrame) (size_dtype : dtype)
    (color_discrete_map : gmap string string) (title : string)
  : result ScatterFigure :=
  let fig := scatter_figure frame color_discrete_map title in
  if decide (Forall (fun t => Forall (valid_marker_size size_dtype)
                                (trace_points t)) (traces fig))
  then Ok fig
  else Raise ValueError.

(** [fig.update_yaxes(title_text='Success or Failure', tickmode='array',
    tickvals=[0, 1], ticktext=['Failure', 'Success'])] *)
Definition update_yaxes (fig : ScatterFigure) : ScatterFigure :=
  {| traces := traces fig;
     scatter_title_text := scatter_title_text fig;
     scatter_height := scatter_height fig;
     yaxis_title_text := "Success or Failure";
     yaxis_tickvals := [0; 1];
     yaxis_ticktext := ["Failure"; "Success"]%string |}.

(** All points of a figure, trace after trace. *)
Definition scatter_points (fig : ScatterFigure) : list Point :=
  flat_map trace_points (traces fig).

(** ** Exceptions as results *)

#[global] Instance result_ret : MRet result := fun _ a => Ok a.

#[global] Instance result_bind : MBind result := fun _ _ k m =>
  match m with
  | Ok a => k a
  | Raise e => Raise e
  end.

(** [l[i]] and [l[-1]] of a Python list. *)
Definition subscript {A} (l : list A) (i : nat) : result A :=
  match l !! i with
  | Some x => Ok x
  | None => Raise IndexError
  end.

Definition subscript_last {A} (l : list A) : result A :=
  match last l with
  | Some x => Ok x
  | None => Raise IndexError
  end.

(** ** The program *)

Section Dashboard.

(** [spacex_df = pd.read_csv("spacex_launch_dash.csv")] *)
Variable spacex_df : DataFrame.

Definition max_payload : option Z := series_max (map payload_mass spacex_df).
Definition min_payload : option Z := series_min (map payload_mass spacex_df).

Definition launch_sites : list string :=
  sorted (unique (map launch_site spacex_df)).

(** The entries of the site drop-down, as (label, value). *)
Definition options : list (string * string) :=
  [("All Sites", "ALL")]%string ++ map (fun x => (x, x)) launch_sites.

(** [.map({0: 'Failure', 1: 'Success'})]; any other value becomes NaN. *)
Definition class_name (c : Z) : label :=
  if decide (c = 0) then Name "Failure"
  else if decide (c = 1) then Name "Success"
  else NaN.

Definition pie_color_map : gmap label string :=
  <[Name "Success" := default ""%string (Plotly !! 0%nat)]>
    (<[Name "Failure" := default ""%string (Plotly !! 1%nat)]> ∅).

Definition pie_category_orders : list label :=
  [Name "Success"; Name "Failure"].

Definition get_pie_chart (entered_site : string) : result PieFigure :=
  if decide (entered_site = "ALL"%string) then
    Ok (px_pie (map (fun r => (Name (launch_site r), class r)) spacex_df)
          None [] "Total Success Launches By Site")
  else
    let rows_of_site :=
      filter (fun r => launch_site r = entered_site) spacex_df in
    let filtered_df := value_counts (map class rows_of_site) in
    let filtered_df := map (fun row => (class_name (fst row), snd row)) filtered_df in
    Ok (px_pie filtered_df (Some pie_color_map) pie_category_orders
          ("Total Success Launches for Site " +:+ entered_site)).

(** The [for i, x in enumerate(boosters)] loop filling [color_map];
    [Plotly[i]] raises once [i] runs past the palette. *)
Fixpoint color_map_loop (i : nat) (boosters : list string)
    (color_map : gmap string string) : result (gmap string string) :=
  match boosters with
  | [] => Ok color_map
  | x :: boosters' =>
      match Plotly !! i with
      | Some c => color_map_loop (S i) boosters' (<[x := c]> color_map)
      | None => Raise IndexError
      end
  end.

Definition scatter_title (entered_site : string) : string :=
  "Correlation between Payload and Success for " +:+
  (if decide (entered_site = "ALL"%string) then "all Sites"%string
   else "site " +:+ entered_site).

Definition get_scatter_chart (entered_site : string)
    (entered_payload : list Z) : result ScatterFigure :=
  entered_payload_min ← subscript entered_payload 0;
  entered_payload_max ← subscript_last entered_payload;
  let filtered_df :=
    filter (fun r => entered_payload_min <= payload_mass r
                     /\ payload_mass r <= entered_payload_max) spacex_df in
  let filtered_df :=
    if decide (entered_site <> "ALL"%string)
    then filter (fun r => launch_site r = entered_site) filtered_df
    else filtered_df in
  let boosters := unique (map booster_version_category spacex_df) in
  color_map ← color_map_loop 0 boosters ∅;
  fig ← px_scatter filtered_df (column_dtype (map payload_mass spacex_df))
          color_map (scatter_title entered_site);
  Ok (update_yaxes fig).

End Dashboard.

(** ** The callbacks as programs on the interpreter's store

    The callbacks read the module-level names and work on data frames, which
    are objects with identity: [filtered_df.columns = ..] and
    [filtered_df['class'] = ..] change a frame in place.  The store keeps the
    module-level bindings and a heap of frames addressed by position. *)

(** The frames the callbacks handle: launch records, value counts, and
    value counts with the class column turned into names.  An operation on
    a frame of another shape than it expects raises. *)
Inductive object :=
  | LaunchFrame (rows : DataFrame)
  | CountFrame (columns : list string) (rows : list (Z * Z))
  | LabelFrame (columns : list string) (rows : list (label * Z)).

(** The names bound at import time. *)
Record globals := mkGlobals {
  g_spacex_df : nat;
  g_max_payload : option Z;
  g_min_payload : option Z;
  g_launch_sites : list string;
  g_options : list (string * string)
}.

Record store := mkStore {
  st_globals : globals;
  st_heap : list object
}.

Definition M (A : Type) : Type := store -> result A * store.

#[global] Instance M_ret : MRet M := fun _ a st => (Ok a, st).

#[global] Instance M_bind : MBind M := fun _ _ k m st =>
  match m st with
  | (Ok a, st') => k a st'
  | (Raise e, st') => (Raise e, st')
  end.

Definition raise {A} (e : exception) : M A := fun st => (Raise e, st).

Definition lift {A} (r : result A) : M A := fun st => (r, st).

(** A new object goes to the end of the heap. *)
Definition alloc (o : object) : M nat := fun st =>
  (Ok (length (st_heap st)), mkStore (st_globals st) (st_heap st ++ [o])).

(** Following a reference; one that leads nowhere cannot arise in Python and
    is an error here. *)
Definition load (l : nat) : M object := fun st =>
  match st_heap st !! l with
  | Some o => (Ok o, st)
  | None => (Raise TypeError, st)
  end.

Definition store_at (l : nat) (o : object) : M unit := fun st =>
  (Ok tt, mkStore (st_globals st) (<[l := o]> (st_heap st))).

(** Reading the module-level name [spacex_df]. *)
Definition name_spacex_df : M nat := fun st =>
  (Ok (g_spacex_df (st_globals st)), st).

(** The rows of a frame of launch records. *)
Definition launch_rows (l : nat) : M DataFrame :=
  o ← load l;
  match o with
  | LaunchFrame rows => mret rows
  | _ => raise TypeError
  end.

(** [df[mask]]: the selected rows as a new frame. *)
Definition select_rows (l : nat) (P : LaunchRecord -> Prop)
    `{forall r, Decision (P r)} : M nat :=
  rows ← launch_rows l;
  alloc (LaunchFrame (filter P rows)).

(** [df['class'].value_counts().reset_index()]: a new frame. *)
Definition class_value_counts (l : nat) : M nat :=
  rows ← launch_rows l;
  alloc (CountFrame ["class"; "count"]%string (value_counts (map class rows))).

(** [df.columns = names]; the frames of launch records keep their four
    columns. *)
Definition set_columns (l : nat) (names : list string) : M unit :=
  o ← load l;
  match o with
  | LaunchFrame rows => raise TypeError
  | CountFrame _ rows => store_at l (CountFrame names rows)
  | LabelFrame _ rows => store_at l (LabelFrame names rows)
  end.

(** [df['class'] = df['class'].map(names)] *)
Definition map_class_column (l : nat) (names : Z -> label) : M unit :=
  o ← load l;
  match o with
  | CountFrame columns rows =>
      store_at l (LabelFrame columns (map (fun row => (names (fst row), snd row)) rows))
  | _ => raise TypeError
  end.

Definition label_rows (l : nat) : M (list (label * Z)) :=
  o ← load l;
  match o with
  | LabelFrame _ rows => mret rows
  | _ => raise TypeError
  end.

(** Plotly express builds its figure from the frame it is given and leaves
    the frame as it is. *)
Definition get_pie_chart_st (entered_site : string) : M PieFigure :=
  spacex_df ← name_spacex_df;
  if decide (entered_site = "ALL"%string) then
    rows ← launch_rows spacex_df;
    mret (px_pie (map (fun r => (Name (launch_site r), class r)) rows)
            None [] "Total Success Launches By Site")
  else
    rows_of_site ←
      select_rows spacex_df (fun r => launch_site r = entered_site);
    filtered_df ← class_value_counts rows_of_site;
    _ ← set_columns filtered_df ["class"; "count"]%string;
    _ ← map_class_column filtered_df class_name;
    rows ← label_rows filtered_df;
    mret (px_pie rows (Some pie_color_map) pie_category_orders
            ("Total Success Launches for Site " +:+ entered_site)).

Definition get_scatter_chart_st (entered_site : string)
    (entered_payload : list Z) : M ScatterFigure :=
  entered_payload_min ← lift (subscript entered_payload 0);
  entered_payload_max ← lift (subscript_last entered_payload);
  spacex_df ← name_spacex_df;
  filtered_df ← select_rows spacex_df
    (fun r => entered_payload_min <= payload_mass r
              /\ payload_mass r <= entered_payload_max);
  filtered_df ←
    (if decide (entered_site <> "ALL"%string)
     then select_rows filtered_df (fun r => launch_site r = entered_site)
     else mret filtered_df);
  all_rows ← launch_rows spacex_df;
  let boosters := unique (map booster_version_category all_rows) in
  color_map ← lift (color_map_loop 0 boosters ∅);
  rows ← launch_rows filtered_df;
  fig ← lift (px_scatter rows (column_dtype (map payload_mass all_rows))
                color_map (scatter_title entered_site));
  mret (update_yaxes fig).

(** The store right after the module has been imported. *)
Definition initial_store (df : DataFrame) : store :=
  mkStore (mkGlobals 0 (max_payload df) (min_payload df) (launch_sites df) (options df))
          [LaunchFrame df].

(** ** Vocabulary of the statements *)

(** The palette has a colour for every booster category of the data set. *)
Definition palette_covers (df : DataFrame) : Prop :=
  (length (unique (map booster_version_category df)) <= length Plotly)%nat.

(** The payload masses of the data set are numbers plotly can draw as
    marker sizes: none is negative, and all fit a 64-bit signed integer. *)
Definition payloads_plottable (df : DataFrame) : Prop :=
  Forall (fun r => 0 <= payload_mass r
                   /\ payload_mass r < 9223372036854775808) df.

(** The records the two controls select: payload within the closed range,
    and launched from the chosen site unless all sites are shown. *)
Definition selected (entered_site : string) (low high : Z)
    (r : LaunchRecord) : Prop :=
  (low <= payload_mass r /\ payload_mass r <= high)
  /\ (entered_site = "ALL"%string \/ launch_site r = entered_site).

#[global] Instance selected_dec entered_site low high r :
  Decision (selected entered_site low high r).
Proof. unfold selected. apply _. Defined.

(** The data sets of the two worked examples of the design document. *)
Definition pie_example : DataFrame :=
  [ mkLaunch "A" 100 1 "v1.0"; mkLaunch "B" 500 0 "v1.1";
    mkLaunch "A" 6000 1 "FT"; mkLaunch "A" 3000 0 "v1.0";
    mkLaunch "B" 2500 0 "FT"; mkLaunch "A" 4000 1 "B4" ].

Definition scatter_example : DataFrame :=
  [ mkLaunch "A" 100 1 "v1.0"; mkLaunch "B" 2000 0 "v1.1";
    mkLaunch "A" 6000 1 "FT"; mkLaunch "A" 3000 0 "v1.0" ].

Definition sum_Z (l : list Z) : Z := foldr Z.add 0 l.

(** The number of records of a site with a given outcome, and the number of
    successes of the whole data set. *)
Definition outcome_count (df : DataFrame) (site : string) (c : Z) : Z :=
  Z.of_nat (length (filter (fun r => launch_site r = site /\ class r = c) df)).

Definition success_total (df : DataFrame) : Z :=
  Z.of_nat (length (filter (fun r => class r = 1) df)).

(** The value drawn for a label: the sum over the sectors that carry it. *)
Definition value_at (l : label) (cd : list Slice) : Z :=
  sum_Z (map slice_value (filter (fun s => slice_label s = l) cd)).

(** The rows of the pie trace for all sites: one per record. *)
Definition site_rows (df : DataFrame) : list PieRow :=
  map (fun r => mkRow (Some (launch_site r)) (class r) None) df.

(** The sectors of the pie chart of one site with [n1] successes and [n0]
    failures. *)
Definition outcome_slices (n1 n0 : Z) : list Slice :=
  (if decide (0 < n1) then [mkSlice (Some "Success") n1 (Some "#636EFA")] else [])
  ++ (if decide (0 < n0) then [mkSlice (Some "Failure") n0 (Some "#EF553B")] else []).

(** In a list of sectors, every sector labelled Success comes before every
    sector labelled Failure. *)
Definition success_before_failure (cd : list Slice) : Prop :=
  forall (i j : nat) (a b : Slice),
    cd !! i = Some a -> cd !! j = Some b ->
    slice_label a = Some "Success" -> slice_label b = Some "Failure" ->
    (i < j)%nat.

(** The frame handed to [px.pie] for a site: value counts with the class
    column renamed. *)
Definition site_frame (df : DataFrame) (site : string) : list (label * Z) :=
  map (fun row => (class_name (fst row), snd row))
    (value_counts (map class (filter (fun r => launch_site r = site) df))).

(** The rows of a pie trace with discrete colours. *)
Definition colored_rows (m : gmap label string) (frame : list (label * Z))
  : list PieRow :=
  zip_with (fun row c => mkRow (fst row) (snd row) c) frame
    (map Some (assign_colors m (map fst frame))).

(** The look of the two outcome sectors in one chart: fixed colours and
    Success ahead of Failure. *)
Definition outcome_look (cd : list Slice) : Prop :=
  (forall a, a ∈ cd -> slice_label a = Some "Success"%string ->
             slice_color a = Some "#636EFA"%string)
  /\ (forall a, a ∈ cd -> slice_label a = Some "Failure"%string ->
                slice_color a = Some "#EF553B"%string)
  /\ success_before_failure cd.

(** Two charts give the same colour to the sectors labelled Success, and to
    those labelled Failure. *)
Definition outcome_colors_agree (cd1 cd2 : list Slice) : Prop :=
  forall a b, a ∈ cd1 -> b ∈ cd2 -> slice_label a = slice_label b ->
    slice_label a = Some "Success"%string
    \/ slice_label a = Some "Failure"%string ->
    slice_color a = slice_color b.

(** The look of the outcome sectors is the same for any two selections of
    the site drop-down, "ALL" included. *)
Definition outcome_look_fixed (df : DataFrame) : Prop :=
  forall (site1 site2 : string) (fig1 fig2 : PieFigure),
    site1 <> site2 ->
    get_pie_chart df site1 = Ok fig1 -> get_pie_chart df site2 = Ok fig2 ->
    outcome_colors_agree (pie_slices fig1) (pie_slices fig2)
    /\ success_before_failure (pie_slices fig1)
    /\ success_before_failure (pie_slices fig2).

(** No launch site bears the name of an outcome. *)
Definition sites_are_not_outcomes (df : DataFrame) : Prop :=
  Forall (fun r => launch_site r <> "Success"%string
                   /\ launch_site r <> "Failure"%string) df.

(** A data set whose launch sites are called like the outcomes. *)
Definition outcome_named_sites : DataFrame :=
  [ mkLaunch "Failure" 100 1 "v1.0"; mkLaunch "Success" 200 1 "v1.0";
    mkLaunch "Failure" 300 1 "v1.0" ].

(** A store reached from [st0] without touching it: the module-level
    bindings are the same and the heap of [st0] is still there, object by
    object, with new objects after it only. *)
Definition extends (st0 st : store) : Prop :=
  st_globals st = st_globals st0 /\ st_heap st0 `prefix_of` st_heap st.

(** A location that did not exist in [st0]. *)
Definition fresh (st0 : store) (l : nat) : Prop :=
  (length (st_heap st0) <= l)%nat.

(** [m] leaves [st0] untouched, whether it returns or raises, and what it
    returns satisfies [Q]. *)
Definition keeps {A} (st0 : store) (m : M A) (Q : A -> Prop) : Prop :=
  forall st, extends st0 st ->
    extends st0 (m st).2 /\ forall a, (m st).1 = Ok a -> Q a.

(** The module-level name [spacex_df] is bound to the frame of the file. *)
Definition holds_dataset (st : store) (df : DataFrame) : Prop :=
  st_heap st !! g_spacex_df (st_globals st) = Some (LaunchFrame df).

(** An object of the old heap, looked up behind new ones. *)
Ltac lookup_old H :=
  repeat match goal with
  | |- context [(?l ++ ?k) !! ?i] =>
      rewrite (lookup_app_l_Some l k i _
                 ltac:(repeat apply lookup_app_l_Some; exact H))
  end.


(** ** Vocabulary of the further properties *)

(** The order of Python's [sorted] on strings. *)
Definition string_lt (x y : string) : Prop := String.ltb x y = true.

(** One firing of a callback by the page, and the store it leaves. *)
Inductive callback :=
  | PieCallback (entered_site : string)
  | ScatterCallback (entered_site : string) (entered_payload : list Z).

Definition fire (c : callback) (st : store) : store :=
  match c with
  | PieCallback entered_site => (get_pie_chart_st entered_site st).2
  | ScatterCallback entered_site entered_payload =>
      (get_scatter_chart_st entered_site entered_payload st).2
  end.

(** The store after the callbacks of a session, fired one after the other. *)
Definition session (cs : list callback) (st : store) : store :=
  foldl (fun st c => fire c st) st cs.


(** A data set with a payload mass below zero. *)
Definition negative_payload_example : DataFrame :=
  [ mkLaunch "A" (-5) 1 "v1.0"; mkLaunch "A" 7 0 "v1.0" ].

(** Plotly accepts the marker sizes of a selection: the payload column is
    not an object column and no selected payload mass is negative (nothing
    is asked of an empty selection). *)
Definition sizes_accepted (df : DataFrame) (entered_site : string)
    (low high : Z) : Prop :=
  Forall (fun r => column_dtype (map payload_mass df) <> object_dtype
                   /\ 0 <= payload_mass r)
    (filter (selected entered_site low high) df).
(** * Properties *)

(** ** Lists *)

Section ListFacts.
Context {A : Type} `{EqDecision A}.

Lemma elem_of_unique (l : list A) (x : A) : x ∈ unique l <-> x ∈ l.
Proof.
  induction l as [|a l IH]; simpl; [done|].
  rewrite !elem_of_cons, list_elem_of_filter, IH.
  destruct (decide (x = a)); tauto.
Qed.

Lemma NoDup_unique (l : list A) : NoDup (unique l).
Proof.
  induction l as [|a l IH]; simpl; [constructor|].
  apply NoDup_cons; split; [|by apply NoDup_filter].
  rewrite list_elem_of_filter. intros [Hne _]. by apply Hne.
Qed.
End ListFacts.

Lemma elem_of_map {A B} (f : A -> B) (l : list A) (y : B) :
  y ∈ map f l <-> exists x, y = f x /\ x ∈ l.
Proof. exact (list_elem_of_fmap f l y). Qed.

Lemma filter_all {A} (P : A -> Prop) `{forall x, Decision (P x)} (l : list A) :
  Forall P l -> filter P l = l.
Proof.
  induction 1 as [|x l Hx _ IH]; [done|].
  by rewrite filter_cons_True, IH.
Qed.

Lemma filter_none {A} (P : A -> Prop) `{forall x, Decision (P x)} (l : list A) :
  Forall (fun x => ~ P x) l -> filter P l = [].
Proof.
  induction 1 as [|x l Hx _ IH]; [done|].
  by rewrite filter_cons_False.
Qed.

Lemma filter_iff {A} (P Q : A -> Prop)
    `{forall x, Decision (P x)} `{forall x, Decision (Q x)} (l : list A) :
  (forall x, x ∈ l -> (P x <-> Q x)) -> filter P l = filter Q l.
Proof.
  induction l as [|a l IH]; intros Hpq; [done|].
  rewrite !filter_cons.
  assert (P a <-> Q a) as Ha by (apply Hpq; left).
  rewrite IH by (intros x Hx; apply Hpq; by right).
  destruct (decide (P a)), (decide (Q a)); tauto.
Qed.

Lemma filter_split_perm {A} (P Q R : A -> Prop)
    `{forall x, Decision (P x)} `{forall x, Decision (Q x)}
    `{forall x, Decision (R x)} (l : list A) :
  (forall x, R x <-> P x \/ Q x) -> (forall x, P x -> Q x -> False) ->
  filter R l ≡ₚ filter P l ++ filter Q l.
Proof.
  intros Hr Hpq. induction l as [|a l IH]; [done|].
  rewrite !filter_cons.
  destruct (decide (P a)) as [Hp|Hp], (decide (Q a)) as [Hq|Hq],
    (decide (R a)) as [Ha|Ha];
    try (exfalso; specialize (Hr a); specialize (Hpq a); tauto); simpl.
  - by rewrite IH.
  - rewrite IH. apply Permutation_middle.
  - done.
Qed.

(** Splitting a list into the groups of its keys loses and repeats nothing. *)
Lemma groups_perm {A K} `{EqDecision K} (key : A -> K) (l : list A) (U : list K) :
  NoDup U ->
  flat_map (fun k => filter (fun r => key r = k) l) U
  ≡ₚ filter (fun r => key r ∈ U) l.
Proof.
  induction 1 as [|k U Hk _ IH]; simpl.
  - rewrite filter_none; [done|]. apply Forall_forall. intros x _. apply not_elem_of_nil.
  - rewrite IH. symmetry. apply filter_split_perm.
    + intros x. by rewrite elem_of_cons.
    + intros x <- Hx. done.
Qed.

Lemma groups_of_unique_perm {A K} `{EqDecision K} (key : A -> K) (l : list A) :
  flat_map (fun k => filter (fun r => key r = k) l) (unique (map key l)) ≡ₚ l.
Proof.
  rewrite groups_perm by apply NoDup_unique.
  rewrite filter_all; [done|].
  apply Forall_forall. intros x Hx. apply elem_of_unique, elem_of_map.
  by exists x.
Qed.

Lemma flat_map_map {A B C} (f : B -> C) (g : A -> list B) (l : list A) :
  flat_map (fun a => map f (g a)) l = map f (flat_map g l).
Proof.
  induction l as [|a l IH]; simpl; [done|]. by rewrite map_app, IH.
Qed.

(** The minimum and the maximum of a column bound every entry. *)
Lemma foldl_min_le (s : list Z) (x : Z) :
  foldl Z.min x s <= x /\ Forall (fun y => foldl Z.min x s <= y) s.
Proof.
  revert x. induction s as [|a s IH]; intros x; simpl; [split; [lia|constructor]|].
  destruct (IH (Z.min x a)) as [H1 H2]. split; [lia|].
  constructor; [lia|done].
Qed.

Lemma foldl_max_ge (s : list Z) (x : Z) :
  x <= foldl Z.max x s /\ Forall (fun y => y <= foldl Z.max x s) s.
Proof.
  revert x. induction s as [|a s IH]; intros x; simpl; [split; [lia|constructor]|].
  destruct (IH (Z.max x a)) as [H1 H2]. split; [lia|].
  constructor; [lia|done].
Qed.

Lemma series_min_le (s : list Z) (lo : Z) :
  series_min s = Some lo -> Forall (fun y => lo <= y) s.
Proof.
  destruct s as [|x s]; simpl; [done|]. intros [= <-].
  destruct (foldl_min_le s x). by constructor.
Qed.

Lemma series_max_ge (s : list Z) (hi : Z) :
  series_max s = Some hi -> Forall (fun y => y <= hi) s.
Proof.
  destruct s as [|x s]; simpl; [done|]. intros [= <-].
  destruct (foldl_max_ge s x). by constructor.
Qed.

(** ** The colour map of the scatter chart *)


Lemma color_map_loop_ok (bs : list string) (i : nat) (cm : gmap string string) :
  (i + length bs <= length Plotly)%nat ->
  exists m, color_map_loop i bs cm = Ok m.
Proof.
  revert i cm. induction bs as [|x bs IH]; intros i cm Hlen; simpl in *; [eauto|].
  destruct (lookup_lt_is_Some_2 Plotly i) as [c Hc]; [simpl; lia|].
  rewrite Hc. apply IH. simpl. lia.
Qed.

Lemma color_map_loop_raise (bs : list string) (i : nat) (cm : gmap string string) :
  (i <= length Plotly < i + length bs)%nat ->
  color_map_loop i bs cm = Raise IndexError.
Proof.
  revert i cm. induction bs as [|x bs IH]; intros i cm Hlen; simpl in *; [lia|].
  destruct (Plotly !! i) as [c|] eqn:Hc; [|done].
  apply lookup_lt_Some in Hc. apply IH. simpl in *. lia.
Qed.

Lemma color_map_loop_other (bs : list string) (i : nat)
    (cm m : gmap string string) (b : string) :
  b ∉ bs -> color_map_loop i bs cm = Ok m -> m !! b = cm !! b.
Proof.
  revert i cm. induction bs as [|x bs IH]; intros i cm Hb; simpl.
  - by intros [= <-].
  - apply not_elem_of_cons in Hb as [Hbx Hb].
    destruct (Plotly !! i) as [c|]; [|done].
    intros Hm. rewrite (IH _ _ Hb Hm). by rewrite lookup_insert_ne.
Qed.

Lemma color_map_loop_lookup (bs : list string) (i j : nat)
    (cm m : gmap string string) (b : string) :
  NoDup bs -> color_map_loop i bs cm = Ok m -> bs !! j = Some b ->
  exists c, Plotly !! (i + j)%nat = Some c /\ m !! b = Some c.
Proof.
  intros Hnd. revert i j cm.
  induction Hnd as [|x bs Hx Hnd IH]; intros i j cm; simpl; [done|].
  destruct (Plotly !! i) as [c|] eqn:Hc; [|done].
  intros Hm Hj. destruct j as [|j]; simpl in Hj.
  - injection Hj as <-. exists c. rewrite Nat.add_0_r. split; [done|].
    rewrite (color_map_loop_other _ _ _ _ _ Hx Hm). by rewrite lookup_insert_eq.
  - replace (i + S j)%nat with (S i + j)%nat by lia. by eapply IH.
Qed.

(** ** The traces of the scatter chart *)

Lemma scatter_traces_points (frame : DataFrame) (vm : gmap string string)
    (groups : list string) :
  flat_map trace_points (scatter_traces frame vm groups)
  = flat_map (fun b => map point_of
       (filter (fun r => booster_version_category r = b) frame)) groups.
Proof.
  revert vm. induction groups as [|b groups IH]; intros vm; simpl; [done|].
  by rewrite IH.
Qed.

Lemma scatter_traces_names (frame : DataFrame) (vm : gmap string string)
    (groups : list string) :
  map trace_name (scatter_traces frame vm groups) = groups.
Proof.
  revert vm. induction groups as [|b groups IH]; intros vm; simpl; [done|].
  by rewrite IH.
Qed.

(** A category that has a colour in the map keeps it. *)
Lemma scatter_traces_color (frame : DataFrame) (vm : gmap string string)
    (groups : list string) (t : ScatterTrace) (c : string) :
  t ∈ scatter_traces frame vm groups -> vm !! trace_name t = Some c ->
  marker_color t = c.
Proof.
  revert vm. induction groups as [|b groups IH]; intros vm; simpl.
  - intros Ht. by apply elem_of_nil in Ht.
  - intros Ht Hc. apply elem_of_cons in Ht as [->|Ht]; simpl in *.
    + by rewrite Hc, Hc.
    + eapply IH; [done|].
      destruct (vm !! b) eqn:Hb; [done|].
      rewrite lookup_insert_ne; [done|]. intros ->. congruence.
Qed.

Lemma scatter_figure_points (frame : DataFrame) (cm : gmap string string)
    (title : string) :
  scatter_points (update_yaxes (scatter_figure frame cm title))
  ≡ₚ map point_of frame.
Proof.
  unfold scatter_points, scatter_figure; simpl.
  rewrite scatter_traces_points, flat_map_map.
  by rewrite groups_of_unique_perm.
Qed.

(** The check of the marker sizes, trace by trace, is a check of the
    payload masses of the frame. *)
Lemma marker_sizes_of_frame (frame : DataFrame) (size_dtype : dtype)
    (cm : gmap string string) (title : string) :
  Forall (fun t => Forall (valid_marker_size size_dtype) (trace_points t))
    (traces (scatter_figure frame cm title))
  <-> Forall (fun r => size_dtype <> object_dtype /\ 0 <= payload_mass r) frame.
Proof.
  assert (Forall (fun t => Forall (valid_marker_size size_dtype) (trace_points t))
            (traces (scatter_figure frame cm title))
          <-> Forall (valid_marker_size size_dtype)
                (scatter_points (update_yaxes (scatter_figure frame cm title))))
    as ->.
  { unfold scatter_points. simpl.
    generalize (scatter_traces frame cm
                  (unique (map booster_version_category frame))).
    intros ts. induction ts as [|t ts IH]; simpl.
    - split; constructor.
    - rewrite Forall_cons, Forall_app, IH. tauto. }
  rewrite scatter_figure_points. rewrite !Forall_forall. split.
  - intros Hp r Hr. apply (Hp (point_of r)). apply elem_of_map. by exists r.
  - intros Hf p Hp. apply elem_of_map in Hp as (r & -> & Hr). by apply Hf.
Qed.

Lemma px_scatter_accepts (frame : DataFrame) (size_dtype : dtype)
    (cm : gmap string string) (title : string) :
  Forall (fun r => size_dtype <> object_dtype /\ 0 <= payload_mass r) frame ->
  px_scatter frame size_dtype cm title = Ok (scatter_figure frame cm title).
Proof.
  intros Hf. unfold px_scatter. rewrite decide_True; [done|].
  by apply marker_sizes_of_frame.
Qed.

Lemma px_scatter_rejects (frame : DataFrame) (size_dtype : dtype)
    (cm : gmap string string) (title : string) :
  ~ Forall (fun r => size_dtype <> object_dtype /\ 0 <= payload_mass r) frame ->
  px_scatter frame size_dtype cm title = Raise ValueError.
Proof.
  intros Hf. unfold px_scatter. rewrite decide_False; [done|].
  by rewrite marker_sizes_of_frame.
Qed.

(** ** The scatter chart *)

(** Only the first and the last entry of the range list are read. *)
Lemma get_scatter_chart_unfold (df : DataFrame) (entered_site : string)
    (entered_payload : list Z) (low high : Z) :
  entered_payload !! 0%nat = Some low -> last entered_payload = Some high ->
  get_scatter_chart df entered_site entered_payload
  = (color_map ← color_map_loop 0 (unique (map booster_version_category df)) ∅;
     fig ← px_scatter (filter (selected entered_site low high) df)
             (column_dtype (map payload_mass df)) color_map
             (scatter_title entered_site);
     Ok (update_yaxes fig)).
Proof.
  intros Hlo Hhi. unfold get_scatter_chart, subscript, subscript_last.
  rewrite Hlo, Hhi. simpl.
  destruct (color_map_loop _ _ _) as [cm|e]; simpl; [|done].
  assert ((if decide (entered_site <> "ALL"%string)
           then filter (fun r => launch_site r = entered_site)
                  (filter (fun r => low <= payload_mass r
                                    /\ payload_mass r <= high) df)
           else filter (fun r => low <= payload_mass r
                                 /\ payload_mass r <= high) df)
          = filter (selected entered_site low high) df) as ->; [|done].
  destruct (decide (entered_site <> "ALL"%string)) as [Hs|Hs].
  - rewrite list_filter_filter. apply filter_iff.
    intros r _. unfold selected. tauto.
  - apply dec_stable in Hs. apply filter_iff.
    intros r _. unfold selected. tauto.
Qed.

Lemma get_scatter_chart_ok (df : DataFrame) (entered_site : string)
    (entered_payload : list Z) (low high : Z) :
  palette_covers df -> sizes_accepted df entered_site low high ->
  entered_payload !! 0%nat = Some low -> last entered_payload = Some high ->
  exists color_map,
    color_map_loop 0 (unique (map booster_version_category df)) ∅ = Ok color_map
    /\ get_scatter_chart df entered_site entered_payload
       = Ok (update_yaxes (scatter_figure
               (filter (selected entered_site low high) df)
               color_map (scatter_title entered_site))).
Proof.
  intros Hp Hsizes Hlo Hhi.
  destruct (color_map_loop_ok (unique (map booster_version_category df)) 0 ∅)
    as [cm Hcm]; [exact Hp|].
  exists cm. split; [done|].
  rewrite (get_scatter_chart_unfold _ _ _ _ _ Hlo Hhi), Hcm. simpl.
  by rewrite (px_scatter_accepts _ _ _ _ Hsizes).
Qed.

Lemma get_scatter_chart_inv (df : DataFrame) (entered_site : string)
    (entered_payload : list Z) (fig : ScatterFigure) :
  get_scatter_chart df entered_site entered_payload = Ok fig ->
  exists low high color_map,
    entered_payload !! 0%nat = Some low /\ last entered_payload = Some high
    /\ color_map_loop 0 (unique (map booster_version_category df)) ∅ = Ok color_map
    /\ fig = update_yaxes (scatter_figure
               (filter (selected entered_site low high) df)
               color_map (scatter_title entered_site)).
Proof.
  intros Hfig.
  destruct (entered_payload !! 0%nat) as [low|] eqn:Hlo;
    [|by unfold get_scatter_chart, subscript in Hfig; rewrite Hlo in Hfig].
  destruct (last entered_payload) as [high|] eqn:Hhi;
    [|by unfold get_scatter_chart, subscript, subscript_last in Hfig;
         rewrite Hlo, Hhi in Hfig].
  rewrite (get_scatter_chart_unfold _ _ _ _ _ Hlo Hhi) in Hfig.
  destruct (color_map_loop _ _ _) as [cm|e] eqn:Hcm; simpl in Hfig; [|done].
  unfold px_scatter in Hfig.
  destruct (decide _) in Hfig; simpl in Hfig; [|done].
  injection Hfig as <-. by exists low, high, cm.
Qed.

(** A chart that came back had marker sizes plotly accepts. *)
Lemma get_scatter_chart_sizes (df : DataFrame) (entered_site : string)
    (entered_payload : list Z) (low high : Z) (fig : ScatterFigure) :
  entered_payload !! 0%nat = Some low -> last entered_payload = Some high ->
  get_scatter_chart df entered_site entered_payload = Ok fig ->
  sizes_accepted df entered_site low high.
Proof.
  intros Hlo Hhi Hfig.
  rewrite (get_scatter_chart_unfold _ _ _ low high) in Hfig by done.
  destruct (color_map_loop _ _ _) as [cm|e]; simpl in Hfig; [|done].
  destruct (decide (sizes_accepted df entered_site low high)) as [|Hno];
    [done|].
  by rewrite (px_scatter_rejects _ _ _ _ Hno) in Hfig.
Qed.

(** A selection plotly does not accept, for a data set the palette
    covers: the [ValueError] of plotly. *)
Lemma get_scatter_chart_sizes_rejected (df : DataFrame) (entered_site : string)
    (entered_payload : list Z) (low high : Z) :
  palette_covers df ->
  entered_payload !! 0%nat = Some low -> last entered_payload = Some high ->
  ~ sizes_accepted df entered_site low high ->
  get_scatter_chart df entered_site entered_payload = Raise ValueError.
Proof.
  intros Hp Hlo Hhi Hno.
  rewrite (get_scatter_chart_unfold _ _ _ low high) by done.
  destruct (color_map_loop_ok (unique (map booster_version_category df)) 0 ∅)
    as [cm ->]; [exact Hp|]. simpl.
  by rewrite (px_scatter_rejects _ _ _ _ Hno).
Qed.

Lemma payloads_plottable_int64 (df : DataFrame) :
  payloads_plottable df -> column_dtype (map payload_mass df) = int64.
Proof.
  intros Hp. unfold column_dtype. rewrite decide_True; [done|].
  apply Forall_forall. intros x Hx. apply elem_of_map in Hx as (r & -> & Hr).
  unfold payloads_plottable in Hp. rewrite Forall_forall in Hp.
  specialize (Hp r Hr). lia.
Qed.

Lemma payloads_plottable_accepted (df : DataFrame) (entered_site : string)
    (low high : Z) :
  payloads_plottable df -> sizes_accepted df entered_site low high.
Proof.
  intros Hp. unfold sizes_accepted.
  rewrite (payloads_plottable_int64 _ Hp).
  apply Forall_forall. intros r Hr. apply list_elem_of_filter in Hr as [_ Hr].
  unfold payloads_plottable in Hp. rewrite Forall_forall in Hp.
  split; [done|]. by apply Hp.
Qed.

Lemma nothing_selected_accepted (df : DataFrame) (entered_site : string)
    (low high : Z) :
  filter (selected entered_site low high) df = [] ->
  sizes_accepted df entered_site low high.
Proof. intros Hnil. unfold sizes_accepted. rewrite Hnil. constructor. Qed.

(** Past ten booster categories the loop over the palette raises, whatever
    the controls say. *)
Lemma get_scatter_chart_palette_exhausted (df : DataFrame)
    (entered_site : string) (entered_payload : list Z) :
  ~ palette_covers df -> entered_payload <> [] ->
  get_scatter_chart df entered_site entered_payload = Raise IndexError.
Proof.
  intros Hp Hne.
  destruct entered_payload as [|low rest]; [done|].
  destruct (last (low :: rest)) as [high|] eqn:Hhi;
    [|by apply last_None in Hhi].
  rewrite (get_scatter_chart_unfold _ _ _ low high) by done.
  rewrite color_map_loop_raise; [done|].
  unfold palette_covers in Hp. simpl in *. lia.
Qed.

Lemma scatter_traces_trace_points (frame : DataFrame)
    (vm : gmap string string) (groups : list string) (t : ScatterTrace) :
  t ∈ scatter_traces frame vm groups ->
  trace_points t
  = map point_of
      (filter (fun r => booster_version_category r = trace_name t) frame).
Proof.
  revert vm. induction groups as [|b groups IH]; intros vm; simpl.
  - intros Ht. by apply elem_of_nil in Ht.
  - intros Ht. apply elem_of_cons in Ht as [->|Ht]; [done|]. by eapply IH.
Qed.

Lemma selected_none (df : DataFrame) (entered_site : string) (low high : Z) :
  Forall (fun r => ~ (low <= payload_mass r /\ payload_mass r <= high)) df ->
  filter (selected entered_site low high) df = [].
Proof.
  intros Hnone. apply filter_none.
  eapply Forall_impl; [exact Hnone|]. intros r Hr [Hin _]. by apply Hr.
Qed.


(** The figure for a two-entry range, for a data set the palette covers and
    a selection plotly accepts. *)
Lemma scatter_shows_selection (df : DataFrame) (entered_site : string)
    (low high : Z) :
  palette_covers df -> sizes_accepted df entered_site low high ->
  exists fig,
    get_scatter_chart df entered_site [low; high] = Ok fig
    /\ scatter_points fig
       ≡ₚ map point_of (filter (selected entered_site low high) df).
Proof.
  intros Hp Hs.
  destruct (get_scatter_chart_ok df entered_site [low; high] low high Hp Hs)
    as (cm & _ & Hfig); [done..|].
  eexists. split; [exact Hfig|]. apply scatter_figure_points.
Qed.

Lemma scatter_shows_exactly (df : DataFrame) (entered_site : string)
    (low high : Z) :
  palette_covers df ->
  Forall (fun r => ~ (low <= payload_mass r /\ payload_mass r <= high)) df ->
  exists fig,
    get_scatter_chart df entered_site [low; high] = Ok fig
    /\ traces fig = [] /\ scatter_points fig = [].
Proof.
  intros Hp Hnone.
  pose proof (selected_none df entered_site low high Hnone) as Hnil.
  destruct (get_scatter_chart_ok df entered_site [low; high] low high Hp
              (nothing_selected_accepted _ _ _ _ Hnil))
    as (cm & _ & Hfig); [done..|].
  eexists. split; [exact Hfig|].
  unfold scatter_points. simpl. by rewrite Hnil.
Qed.

Lemma payloads_plottable_example : payloads_plottable scatter_example.
Proof.
  unfold payloads_plottable, scatter_example. repeat constructor; simpl; lia.
Qed.

(** C3: for every site and every payload range [low, high] the scatter
    chart shows exactly the records with low <= payload mass <= high, both
    ends included, and of the selected site unless that is "ALL": one point
    per such record, with the payload mass as x and as size and the class
    as y; each trace holds the selected records of its booster category;
    when no record lies in the range the chart has no points.  The data
    set is one the chart can be drawn for: at most ten booster categories
    and payload masses that are not negative and fit 64 bits. *)
Theorem scatter_shows_exactly_the_selected_records (df : DataFrame)
    (entered_site : string) (low high : Z) :
  palette_covers df -> payloads_plottable df ->
  exists fig,
    get_scatter_chart df entered_site [low; high] = Ok fig
    /\ scatter_points fig
       ≡ₚ map (fun r => mkPoint (payload_mass r) (class r) (payload_mass r))
            (filter (fun r => (low <= payload_mass r /\ payload_mass r <= high)
                              /\ (entered_site = "ALL"%string
                                  \/ launch_site r = entered_site)) df)
    /\ (forall t, t ∈ traces fig ->
          trace_points t
          = map (fun r => mkPoint (payload_mass r) (class r) (payload_mass r))
              (filter (fun r => booster_version_category r = trace_name t)
                 (filter (fun r => (low <= payload_mass r
                                    /\ payload_mass r <= high)
                                   /\ (entered_site = "ALL"%string
                                       \/ launch_site r = entered_site)) df)))
    /\ (Forall (fun r => ~ (low <= payload_mass r /\ payload_mass r <= high)) df ->
          traces fig = [] /\ scatter_points fig = []).
Proof.
  intros Hp Hpl.
  destruct (get_scatter_chart_ok df entered_site [low; high] low high Hp
              (payloads_plottable_accepted _ _ _ _ Hpl))
    as (cm & _ & Hfig); [done..|].
  eexists. split; [exact Hfig|].
  split; [exact (scatter_figure_points _ _ _)|]. split.
  - intros t Ht. exact (scatter_traces_trace_points _ _ _ _ Ht).
  - intros Hnone. unfold scatter_points. simpl.
    by rewrite selected_none.
Qed.

Lemma scatter_shows_exactly_the_selected_records_witness :
  palette_covers scatter_example /\ payloads_plottable scatter_example
  /\ exists fig,
    get_scatter_chart scatter_example "A" [0; 5000] = Ok fig
    /\ scatter_points fig
       ≡ₚ map (fun r => mkPoint (payload_mass r) (class r) (payload_mass r))
            (filter (fun r => (0 <= payload_mass r /\ payload_mass r <= 5000)
                              /\ ("A"%string = "ALL"%string
                                  \/ launch_site r = "A"%string))
               scatter_example)
    /\ (forall t, t ∈ traces fig ->
          trace_points t
          = map (fun r => mkPoint (payload_mass r) (class r) (payload_mass r))
              (filter (fun r => booster_version_category r = trace_name t)
                 (filter (fun r => (0 <= payload_mass r
                                    /\ payload_mass r <= 5000)
                                   /\ ("A"%string = "ALL"%string
                                       \/ launch_site r = "A"%string))
                    scatter_example)))
    /\ (Forall (fun r => ~ (0 <= payload_mass r /\ payload_mass r <= 5000))
          scatter_example ->
          traces fig = [] /\ scatter_points fig = []).
Proof.
  assert (palette_covers scatter_example) as Hp
    by (unfold palette_covers; simpl; lia).
  split; [exact Hp|]. split; [exact payloads_plottable_example|].
  exact (scatter_shows_exactly_the_selected_records scatter_example "A" 0 5000
           Hp payloads_plottable_example).
Defined.

(** The worked example: site A with payload masses 100, 6000 and 3000 and
    the range [0, 5000] leaves the points at 100 and 3000. *)
Example scatter_example_points :
  exists fig, get_scatter_chart scatter_example "A" [0; 5000] = Ok fig
    /\ scatter_points fig = [mkPoint 100 1 100; mkPoint 3000 0 3000].
Proof. eexists. split; [vm_compute; reflexivity|reflexivity]. Qed.

(** A payload mass below zero among the selected records: plotly does not
    take it as a marker size, and the callback raises; a range that leaves
    the record out gives a chart. *)
Example negative_payload_is_rejected :
  get_scatter_chart negative_payload_example "ALL" [-10; 10] = Raise ValueError
  /\ exists fig,
       get_scatter_chart negative_payload_example "ALL" [0; 10] = Ok fig
       /\ scatter_points fig = [mkPoint 7 0 7].
Proof.
  split; [reflexivity|].
  eexists. split; [vm_compute; reflexivity|reflexivity].
Qed.

(** C6: at the default range [min_payload, max_payload] the payload filter
    keeps every record, so the scatter chart shows every record of the
    selected site (every record of the data set for "ALL"), one point per
    record with the payload mass as x and as size and the class as y.  The
    data set is one the chart can be drawn for: at most ten booster
    categories and payload masses that are not negative and fit 64
    bits. *)
Theorem default_range_shows_every_record (df : DataFrame)
    (entered_site : string) (low high : Z) :
  palette_covers df -> payloads_plottable df ->
  min_payload df = Some low -> max_payload df = Some high ->
  filter (fun r => low <= payload_mass r /\ payload_mass r <= high) df = df
  /\ exists fig,
       get_scatter_chart df entered_site [low; high] = Ok fig
       /\ scatter_points fig
          ≡ₚ map (fun r => mkPoint (payload_mass r) (class r) (payload_mass r))
               (filter (fun r => entered_site = "ALL"%string
                                 \/ launch_site r = entered_site) df).
Proof.
  intros Hp Hpl Hmin Hmax.
  apply series_min_le in Hmin. apply series_max_ge in Hmax.
  rewrite Forall_forall in Hmin, Hmax.
  assert (forall r, r ∈ df -> low <= payload_mass r /\ payload_mass r <= high)
    as Hin.
  { intros r Hr. split; [apply Hmin|apply Hmax]; apply elem_of_map; by exists r. }
  split.
  - apply filter_all. by apply Forall_forall.
  - destruct (scatter_shows_selection df entered_site low high Hp
                (payloads_plottable_accepted _ _ _ _ Hpl))
      as (fig & Hfig & Hpts).
    exists fig. split; [done|]. rewrite Hpts.
    rewrite (filter_iff (selected entered_site low high)
               (fun r => entered_site = "ALL"%string
                         \/ launch_site r = entered_site)); [done|].
    intros r Hr. unfold selected. specialize (Hin r Hr). tauto.
Qed.

Lemma default_range_shows_every_record_witness :
  palette_covers scatter_example /\ payloads_plottable scatter_example
  /\ min_payload scatter_example = Some 100
  /\ max_payload scatter_example = Some 6000
  /\ filter (fun r => 100 <= payload_mass r /\ payload_mass r <= 6000)
       scatter_example = scatter_example
  /\ exists fig,
       get_scatter_chart scatter_example "A" [100; 6000] = Ok fig
       /\ scatter_points fig
          ≡ₚ map (fun r => mkPoint (payload_mass r) (class r) (payload_mass r))
               (filter (fun r => "A"%string = "ALL"%string
                                 \/ launch_site r = "A"%string) scatter_example).
Proof.
  assert (palette_covers scatter_example) as Hp
    by (unfold palette_covers; simpl; lia).
  split; [exact Hp|]. split; [exact payloads_plottable_example|].
  split; [reflexivity|]. split; [reflexivity|].
  apply (default_range_shows_every_record scatter_example "A" 100 6000 Hp
           payloads_plottable_example); reflexivity.
Defined.

(** C10: any range list with at least one entry is accepted; the lower
    bound is its first entry and the upper bound its last, so a list [x] of
    one entry selects the records whose payload mass is exactly x, and the
    entries in between play no part.  The points are one per selected
    record, with the payload mass as x and as size and the class as y.  The
    data set is one the chart can be drawn for: at most ten booster
    categories and payload masses that are not negative and fit 64
    bits. *)
Theorem range_list_first_and_last (df : DataFrame) (entered_site : string) :
  palette_covers df -> payloads_plottable df ->
  (forall entered_payload : list Z, entered_payload <> [] ->
     exists low high fig,
       entered_payload !! 0%nat = Some low /\ last entered_payload = Some high
       /\ get_scatter_chart df entered_site entered_payload = Ok fig
       /\ scatter_points fig
          ≡ₚ map (fun r => mkPoint (payload_mass r) (class r) (payload_mass r))
               (filter (fun r => (low <= payload_mass r
                                  /\ payload_mass r <= high)
                                 /\ (entered_site = "ALL"%string
                                     \/ launch_site r = entered_site)) df))
  /\ (forall x : Z, exists fig,
        get_scatter_chart df entered_site [x] = Ok fig
        /\ scatter_points fig
           ≡ₚ map (fun r => mkPoint (payload_mass r) (class r) (payload_mass r))
                (filter (fun r => payload_mass r = x
                                  /\ (entered_site = "ALL"%string
                                      \/ launch_site r = entered_site)) df))
  /\ (forall (low high : Z) (between between' : list Z),
        get_scatter_chart df entered_site (low :: between ++ [high])
        = get_scatter_chart df entered_site (low :: between' ++ [high])).
Proof.
  intros Hp Hpl. split; [|split].
  - intros l Hne. destruct l as [|low rest]; [done|].
    destruct (last (low :: rest)) as [high|] eqn:Hhi;
      [|by apply last_None in Hhi].
    destruct (get_scatter_chart_ok df entered_site (low :: rest) low high Hp
                (payloads_plottable_accepted _ _ _ _ Hpl))
      as (cm & _ & Hfig); [done..|].
    exists low, high. eexists. do 3 (split; [done|]).
    exact (scatter_figure_points _ _ _).
  - intros x.
    destruct (get_scatter_chart_ok df entered_site [x] x x Hp
                (payloads_plottable_accepted _ _ _ _ Hpl))
      as (cm & _ & Hfig); [done..|].
    eexists. split; [exact Hfig|]. rewrite scatter_figure_points.
    rewrite (filter_iff (selected entered_site x x)
               (fun r => payload_mass r = x
                         /\ (entered_site = "ALL"%string
                             \/ launch_site r = entered_site))); [done|].
    intros r _. unfold selected. split; (intros [? ?]; split; [lia|done]).
  - intros low high between between'.
    rewrite !(get_scatter_chart_unfold df entered_site _ low high); try done.
    + apply (last_app_cons (low :: between') [] high).
    + apply (last_app_cons (low :: between) [] high).
Qed.

Lemma range_list_first_and_last_witness :
  palette_covers scatter_example /\ payloads_plottable scatter_example
  /\ (exists fig,
        get_scatter_chart scatter_example "ALL" [3000] = Ok fig
        /\ scatter_points fig
           ≡ₚ map (fun r => mkPoint (payload_mass r) (class r) (payload_mass r))
                (filter (fun r => payload_mass r = 3000
                                  /\ ("ALL"%string = "ALL"%string
                                      \/ launch_site r = "ALL"%string))
                   scatter_example))
  /\ get_scatter_chart scatter_example "ALL" (0 :: [9000; 7; 7] ++ [5000])
     = get_scatter_chart scatter_example "ALL" (0 :: [] ++ [5000]).
Proof.
  assert (palette_covers scatter_example) as Hp
    by (unfold palette_covers; simpl; lia).
  pose proof (range_list_first_and_last scatter_example "ALL" Hp
                payloads_plottable_example)
    as (_ & Hone & Hbetween).
  split; [exact Hp|]. split; [exact payloads_plottable_example|].
  split; [exact (Hone 3000)|].
  exact (Hbetween 0 5000 [9000; 7; 7] []).
Defined.

(** C8, the claim as stated, on the example: it does not hold.  With the
    bounds the wrong way round nothing is raised. *)
Lemma inverted_range_is_not_rejected :
  ~ (forall (entered_site : string) (low high : Z), low > high ->
       get_scatter_chart scatter_example entered_site [low; high]
       = Raise InvalidRangeError).
Proof.
  intros Hclaim. specialize (Hclaim "ALL"%string 5000 0 ltac:(lia)).
  vm_compute in Hclaim. discriminate Hclaim.
Qed.

(** What the callback can come back with: a figure, the [IndexError] of a
    subscript, or the [ValueError] of plotly. *)
Lemma get_scatter_chart_outcomes (df : DataFrame) (entered_site : string)
    (entered_payload : list Z) :
  (exists fig, get_scatter_chart df entered_site entered_payload = Ok fig)
  \/ get_scatter_chart df entered_site entered_payload = Raise IndexError
  \/ get_scatter_chart df entered_site entered_payload = Raise ValueError.
Proof.
  destruct entered_payload as [|lo rest]; [by right; left|].
  destruct (last (lo :: rest)) as [hi|] eqn:Hhi; [|by apply last_None in Hhi].
  destruct (decide (length (unique (map booster_version_category df))
                    <= length Plotly)%nat) as [Hp|Hp].
  - destruct (decide (sizes_accepted df entered_site lo hi)) as [Hs|Hs].
    + destruct (get_scatter_chart_ok df entered_site (lo :: rest) lo hi Hp Hs)
        as (cm & _ & Hfig); [done..|]. left. by eexists.
    + right; right.
      rewrite (get_scatter_chart_unfold _ _ _ lo hi) by done.
      destruct (color_map_loop_ok (unique (map booster_version_category df))
                  0 ∅) as [cm ->]; [exact Hp|]. simpl.
      by rewrite (px_scatter_rejects _ _ _ _ Hs).
  - right; left. by apply get_scatter_chart_palette_exhausted.
Qed.

(** C8, amended: a range whose lower bound exceeds its upper bound is not
    rejected; no record satisfies it and the chart comes back without any
    trace or point (an [IndexError] comes back instead when the palette
    does not cover the booster categories, as for every range).
    [InvalidRangeError] is never raised, on any input. *)
Theorem inverted_range_shows_nothing (df : DataFrame)
    (entered_site : string) (low high : Z) :
  low > high ->
  (palette_covers df ->
   exists fig,
     get_scatter_chart df entered_site [low; high] = Ok fig
     /\ traces fig = [] /\ scatter_points fig = [])
  /\ (~ palette_covers df ->
      get_scatter_chart df entered_site [low; high] = Raise IndexError)
  /\ (forall entered_payload : list Z,
        get_scatter_chart df entered_site entered_payload
        <> Raise InvalidRangeError).
Proof.
  intros Hinv. split; [|split].
  - intros Hp. apply scatter_shows_exactly; [done|].
    apply Forall_forall. intros r _. lia.
  - intros Hp. by apply get_scatter_chart_palette_exhausted.
  - intros l Hl.
    destruct (get_scatter_chart_outcomes df entered_site l)
      as [[fig Hfig]|[Hfig|Hfig]]; congruence.
Qed.

Lemma inverted_range_shows_nothing_witness :
  5000 > 0 /\ palette_covers scatter_example
  /\ (exists fig,
        get_scatter_chart scatter_example "A" [5000; 0] = Ok fig
        /\ traces fig = [] /\ scatter_points fig = [])
  /\ (forall entered_payload : list Z,
        get_scatter_chart scatter_example "A" entered_payload
        <> Raise InvalidRangeError).
Proof.
  assert (palette_covers scatter_example) as Hp
    by (unfold palette_covers; simpl; lia).
  assert (5000 > 0) as Hinv by lia.
  pose proof (inverted_range_shows_nothing scatter_example "A" 5000 0 Hinv)
    as (Hempty & _ & Hnever).
  split; [exact Hinv|]. split; [exact Hp|]. split; [exact (Hempty Hp)|].
  exact Hnever.
Defined.

(** The colour of every trace is the palette entry at the position of its
    booster category among the categories of the whole data set. *)
Lemma trace_color_by_first_appearance (df : DataFrame) (entered_site : string)
    (entered_payload : list Z) (fig : ScatterFigure) (t : ScatterTrace) :
  get_scatter_chart df entered_site entered_payload = Ok fig ->
  t ∈ traces fig ->
  exists i,
    unique (map booster_version_category df) !! i = Some (trace_name t)
    /\ Plotly !! i = Some (marker_color t).
Proof.
  intros Hfig Ht.
  apply get_scatter_chart_inv in Hfig as (low & high & cm & _ & _ & Hcm & ->).
  simpl in Ht.
  assert (trace_name t ∈ unique (map booster_version_category df)) as Hname.
  { assert (trace_name t ∈ map trace_name
              (scatter_traces (filter (selected entered_site low high) df) cm
                 (unique (map booster_version_category
                            (filter (selected entered_site low high) df)))))
      as Hn by (apply elem_of_map; by exists t).
    rewrite scatter_traces_names in Hn.
    apply elem_of_unique, elem_of_map in Hn as (r & Hr & Hin).
    apply list_elem_of_filter in Hin as [_ Hin].
    apply elem_of_unique, elem_of_map. by exists r. }
  apply list_elem_of_lookup in Hname as [i Hi].
  destruct (color_map_loop_lookup _ 0 i ∅ cm _ (NoDup_unique _) Hcm Hi)
    as (c & Hc & Hlook).
  exists i. split; [done|].
  by rewrite (scatter_traces_color _ _ _ _ _ Ht Hlook).
Qed.

(** C4: a booster category has the same colour in every scatter chart,
    whatever the site and the payload range: the colour is the palette
    entry at the position where the category first appears among the
    categories of the full, unfiltered data set. *)
Theorem booster_color_independent_of_filter (df : DataFrame)
    (site1 site2 : string) (range1 range2 : list Z)
    (fig1 fig2 : ScatterFigure) (t1 t2 : ScatterTrace) :
  get_scatter_chart df site1 range1 = Ok fig1 ->
  get_scatter_chart df site2 range2 = Ok fig2 ->
  t1 ∈ traces fig1 -> t2 ∈ traces fig2 ->
  trace_name t1 = trace_name t2 ->
  marker_color t1 = marker_color t2
  /\ exists i,
       unique (map booster_version_category df) !! i = Some (trace_name t1)
       /\ Plotly !! i = Some (marker_color t1).
Proof.
  intros Hfig1 Hfig2 Ht1 Ht2 Hname.
  destruct (trace_color_by_first_appearance _ _ _ _ _ Hfig1 Ht1) as (i & Hi & Hci).
  destruct (trace_color_by_first_appearance _ _ _ _ _ Hfig2 Ht2) as (j & Hj & Hcj).
  split; [|by exists i].
  rewrite <- Hname in Hj.
  assert (i = j) as ->
    by exact (NoDup_lookup _ _ _ _ (NoDup_unique _) Hi Hj).
  congruence.
Qed.

Lemma booster_color_independent_of_filter_witness :
  let fig1 := update_yaxes (scatter_figure
                (filter (selected "ALL" 0 10000) scatter_example)
                (<["FT" := "#00CC96"]> (<["v1.1" := "#EF553B"]>
                   (<["v1.0" := "#636EFA"]> ∅)))
                (scatter_title "ALL")) in
  let fig2 := update_yaxes (scatter_figure
                (filter (selected "A" 5000 7000) scatter_example)
                (<["FT" := "#00CC96"]> (<["v1.1" := "#EF553B"]>
                   (<["v1.0" := "#636EFA"]> ∅)))
                (scatter_title "A")) in
  let t1 := mkTrace "FT" "#00CC96" [mkPoint 6000 1 6000] in
  let t2 := mkTrace "FT" "#00CC96" [mkPoint 6000 1 6000] in
  get_scatter_chart scatter_example "ALL" [0; 10000] = Ok fig1
  /\ get_scatter_chart scatter_example "A" [5000; 7000] = Ok fig2
  /\ t1 ∈ traces fig1 /\ t2 ∈ traces fig2
  /\ marker_color t1 = marker_color t2
  /\ exists i,
       unique (map booster_version_category scatter_example) !! i
       = Some (trace_name t1)
       /\ Plotly !! i = Some (marker_color t1).
Proof.
  intros fig1 fig2 t1 t2.
  assert (get_scatter_chart scatter_example "ALL" [0; 10000] = Ok fig1) as H1
    by reflexivity.
  assert (get_scatter_chart scatter_example "A" [5000; 7000] = Ok fig2) as H2
    by reflexivity.
  assert (t1 ∈ traces fig1) as Ht1.
  { vm_compute. do 2 apply list_elem_of_further. apply list_elem_of_here. }
  assert (t2 ∈ traces fig2) as Ht2.
  { vm_compute. apply list_elem_of_here. }
  do 4 (split; [assumption|]).
  exact (booster_color_independent_of_filter scatter_example "ALL" "A"
           [0; 10000] [5000; 7000] fig1 fig2 t1 t2 H1 H2 Ht1 Ht2 eq_refl).
Defined.

(** ** Sectors of a pie *)

Lemma sum_Z_app (l1 l2 : list Z) : sum_Z (l1 ++ l2) = sum_Z l1 + sum_Z l2.
Proof. induction l1 as [|x l1 IH]; simpl; [done|]. rewrite IH. lia. Qed.

Lemma sum_Z_perm (l1 l2 : list Z) : l1 ≡ₚ l2 -> sum_Z l1 = sum_Z l2.
Proof. induction 1; simpl; lia. Qed.

Lemma insert_desc_perm {A} (key : A -> Z) (x : A) (l : list A) :
  insert_desc key x l ≡ₚ x :: l.
Proof.
  induction l as [|y l IH]; simpl; [done|].
  destruct (decide (key y <= key x)); [done|].
  rewrite IH. apply perm_swap.
Qed.

Lemma sort_desc_perm {A} (key : A -> Z) (l : list A) : sort_desc key l ≡ₚ l.
Proof.
  induction l as [|x l IH]; simpl; [done|].
  by rewrite insert_desc_perm, IH.
Qed.

Lemma add_row_labels (r : PieRow) (cd : list Slice) (l : label) :
  l ∈ map slice_label (add_row r cd)
  <-> l ∈ map slice_label cd \/ l = row_label r.
Proof.
  induction cd as [|s cd IH]; simpl.
  - rewrite elem_of_cons, elem_of_nil. tauto.
  - destruct (decide (slice_label s = row_label r)) as [Heq|Hne]; simpl.
    + rewrite !elem_of_cons, <- Heq. tauto.
    + rewrite !elem_of_cons, IH. tauto.
Qed.

Lemma add_row_NoDup (r : PieRow) (cd : list Slice) :
  NoDup (map slice_label cd) -> NoDup (map slice_label (add_row r cd)).
Proof.
  induction cd as [|s cd IH]; simpl; intros Hnd.
  - apply NoDup_singleton.
  - apply NoDup_cons in Hnd as [Hs Hnd].
    destruct (decide (slice_label s = row_label r)) as [Heq|Hne]; simpl.
    + by apply NoDup_cons.
    + apply NoDup_cons. split; [|by apply IH].
      rewrite add_row_labels. tauto.
Qed.

Lemma add_row_value_at (r : PieRow) (cd : list Slice) (l : label) :
  value_at l (add_row r cd)
  = value_at l cd + (if decide (row_label r = l) then row_value r else 0).
Proof.
  unfold value_at. induction cd as [|s cd IH]; simpl.
  - rewrite filter_cons; simpl.
    destruct (decide (row_label r = l)); simpl; lia.
  - destruct (decide (slice_label s = row_label r)) as [Heq|Hne].
    + rewrite !filter_cons; simpl.
      destruct (decide (slice_label s = l)), (decide (row_label r = l));
        simpl; try lia; congruence.
    + rewrite !filter_cons.
      destruct (decide (slice_label s = l)), (decide (row_label r = l));
        simpl; simpl in IH; rewrite IH;
        try (rewrite decide_True by done); try (rewrite decide_False by done);
        try lia; congruence.
Qed.

Lemma add_row_sum (r : PieRow) (cd : list Slice) :
  sum_Z (map slice_value (add_row r cd))
  = sum_Z (map slice_value cd) + row_value r.
Proof.
  induction cd as [|s cd IH]; simpl; [lia|].
  destruct (decide (slice_label s = row_label r)); simpl; lia.
Qed.

(** A sector's colour was given by one of the rows with its label. *)
Lemma add_row_color (r : PieRow) (cd : list Slice) (s : Slice) (c : string) :
  s ∈ add_row r cd -> slice_color s = Some c ->
  (exists s', s' ∈ cd /\ slice_label s' = slice_label s
              /\ slice_color s' = Some c)
  \/ (row_label r = slice_label s /\ row_color r = Some c).
Proof.
  induction cd as [|s0 cd IH]; simpl.
  - intros Hs Hc. apply list_elem_of_singleton in Hs as ->. by right.
  - destruct (decide (slice_label s0 = row_label r)) as [Heq|Hne].
    + intros Hs Hc. apply elem_of_cons in Hs as [->|Hs]; simpl in *.
      * destruct (slice_color s0) as [c0|] eqn:Hc0.
        -- left. exists s0. split; [left|]. split; congruence.
        -- by right.
      * left. exists s. split; [by right|done].
    + intros Hs Hc. apply elem_of_cons in Hs as [->|Hs].
      * left. exists s0. split; [left|done].
      * destruct (IH Hs Hc) as [(s' & Hs' & Hl & Hc')|Hr]; [|by right].
        left. exists s'. split; [by right|done].
Qed.

Lemma foldl_add_row_labels (rows : list PieRow) (cd : list Slice) (l : label) :
  l ∈ map slice_label (foldl (fun cd r => add_row r cd) cd rows)
  <-> l ∈ map slice_label cd \/ l ∈ map row_label rows.
Proof.
  revert cd. induction rows as [|r rows IH]; intros cd; simpl.
  - rewrite elem_of_nil. tauto.
  - rewrite IH, add_row_labels, elem_of_cons. tauto.
Qed.

Lemma foldl_add_row_NoDup (rows : list PieRow) (cd : list Slice) :
  NoDup (map slice_label cd) ->
  NoDup (map slice_label (foldl (fun cd r => add_row r cd) cd rows)).
Proof.
  revert cd. induction rows as [|r rows IH]; intros cd Hnd; simpl; [done|].
  by apply IH, add_row_NoDup.
Qed.

Lemma foldl_add_row_value_at (rows : list PieRow) (cd : list Slice) (l : label) :
  value_at l (foldl (fun cd r => add_row r cd) cd rows)
  = value_at l cd
    + sum_Z (map row_value (filter (fun r => row_label r = l) rows)).
Proof.
  revert cd. induction rows as [|r rows IH]; intros cd; simpl; [lia|].
  rewrite IH, add_row_value_at, filter_cons.
  destruct (decide (row_label r = l)); simpl; lia.
Qed.

Lemma foldl_add_row_sum (rows : list PieRow) (cd : list Slice) :
  sum_Z (map slice_value (foldl (fun cd r => add_row r cd) cd rows))
  = sum_Z (map slice_value cd) + sum_Z (map row_value rows).
Proof.
  revert cd. induction rows as [|r rows IH]; intros cd; simpl; [lia|].
  rewrite IH, add_row_sum. lia.
Qed.

Lemma foldl_add_row_color (rows : list PieRow) (cd : list Slice)
    (s : Slice) (c : string) :
  s ∈ foldl (fun cd r => add_row r cd) cd rows -> slice_color s = Some c ->
  (exists s', s' ∈ cd /\ slice_label s' = slice_label s
              /\ slice_color s' = Some c)
  \/ (exists r, r ∈ rows /\ row_label r = slice_label s
                /\ row_color r = Some c).
Proof.
  revert cd. induction rows as [|r rows IH]; intros cd; simpl.
  - intros Hs Hc. left. by exists s.
  - intros Hs Hc. destruct (IH _ Hs Hc) as [(s' & Hs' & Hl & Hc')|(r' & Hr' & H')].
    + destruct (add_row_color _ _ _ _ Hs' Hc') as [(s'' & ? & ? & ?)|[? ?]].
      * left. exists s''. split; [done|]. split; congruence.
      * right. exists r. split; [left|]. split; congruence.
    + right. exists r'. split; [by right|done].
Qed.

(** With distinct labels a sector's value is the value drawn for its
    label. *)
Lemma value_at_NoDup (cd : list Slice) (s : Slice) :
  NoDup (map slice_label cd) -> s ∈ cd ->
  value_at (slice_label s) cd = slice_value s.
Proof.
  unfold value_at. induction cd as [|s0 cd IH]; simpl; intros Hnd Hs.
  - by apply elem_of_nil in Hs.
  - apply NoDup_cons in Hnd as [Hs0 Hnd]. rewrite filter_cons.
    apply elem_of_cons in Hs as [->|Hs].
    + rewrite decide_True by done. simpl.
      rewrite filter_none; [simpl; lia|].
      apply Forall_forall. intros s' Hs' Heq. apply Hs0.
      apply elem_of_map. by exists s'.
    + rewrite decide_False; [by apply IH|].
      intros Heq. apply Hs0. apply elem_of_map. by exists s.
Qed.

Lemma filter_map {A B} (f : A -> B) (P : B -> Prop)
    `{forall y, Decision (P y)} (l : list A) :
  filter P (map f l) = map f (filter (fun x => P (f x)) l).
Proof.
  induction l as [|a l IH]; simpl; [done|].
  rewrite !filter_cons, IH. by destruct (decide (P (f a))).
Qed.

Lemma zip_with_const_r {A B C} (f : A -> B -> C) (b : B) (l : list A) :
  zip_with f l (map (fun _ => b) l) = map (fun a => f a b) l.
Proof. induction l as [|a l IH]; simpl; [done|]. by rewrite IH. Qed.

(** On a binary column the sum is the number of ones. *)
Lemma sum_class_binary (df : DataFrame) :
  binary_class df ->
  sum_Z (map class df) = Z.of_nat (length (filter (fun r => class r = 1) df)).
Proof.
  induction 1 as [|r df Hr _ IH]; simpl; [done|].
  rewrite filter_cons, IH.
  destruct (decide (class r = 1)); simpl; lia.
Qed.

Lemma binary_class_filter (df : DataFrame) (P : LaunchRecord -> Prop)
    `{forall r, Decision (P r)} :
  binary_class df -> binary_class (filter P df).
Proof.
  unfold binary_class. rewrite !Forall_forall.
  intros Hb r Hr. apply list_elem_of_filter in Hr as [_ Hr]. by apply Hb.
Qed.

Lemma pie_slices_perm (fig : PieFigure) :
  Forall (fun s => 0 <= slice_value s) (pie_calc (pie_rows fig)) ->
  pie_slices fig ≡ₚ pie_calc (pie_rows fig).
Proof.
  intros Hpos. unfold pie_slices. rewrite (filter_all _ _ Hpos).
  destruct (pie_sort fig); [apply sort_desc_perm|done].
Qed.

(** ** The pie chart of all sites *)

Lemma get_pie_chart_all (df : DataFrame) :
  get_pie_chart df "ALL"
  = Ok (mkPie (site_rows df) true "Total Success Launches By Site").
Proof.
  unfold get_pie_chart, px_pie, site_rows. simpl.
  do 2 f_equal. rewrite zip_with_const_r, map_map. done.
Qed.

Lemma site_rows_value (df : DataFrame) (site : string) :
  binary_class df ->
  sum_Z (map row_value
           (filter (fun r => row_label r = Some site) (site_rows df)))
  = outcome_count df site 1.
Proof.
  intros Hb. unfold site_rows, outcome_count.
  rewrite filter_map, map_map. simpl.
  rewrite (filter_iff _ (fun r => launch_site r = site))
    by (intros r _; split; [by intros [= ->]|by intros ->]).
  rewrite (sum_class_binary _ (binary_class_filter _ _ Hb)).
  rewrite list_filter_filter. do 2 f_equal.
  apply filter_iff. intros r _. tauto.
Qed.

Lemma site_rows_sectors (df : DataFrame) (s : Slice) :
  binary_class df -> s ∈ pie_calc (site_rows df) ->
  exists site, site ∈ map launch_site df /\ slice_label s = Some site
               /\ slice_value s = outcome_count df site 1.
Proof.
  intros Hb Hs.
  assert (NoDup (map slice_label (pie_calc (site_rows df)))) as Hnd
    by (apply foldl_add_row_NoDup; constructor).
  assert (slice_label s ∈ map slice_label (pie_calc (site_rows df))) as Hl
    by (apply elem_of_map; by exists s).
  apply foldl_add_row_labels in Hl as [Hl|Hl]; [by apply elem_of_nil in Hl|].
  unfold site_rows in Hl. rewrite map_map in Hl. simpl in Hl.
  apply elem_of_map in Hl as (r & Hlab & Hr).
  exists (launch_site r). split; [apply elem_of_map; by exists r|].
  split; [done|].
  rewrite <- (value_at_NoDup _ _ Hnd Hs).
  unfold pie_calc. rewrite foldl_add_row_value_at, Hlab.
  rewrite (site_rows_value _ _ Hb). unfold value_at. simpl. lia.
Qed.

(** C1: for "ALL" the pie chart has one sector per launch site, its value
    is the number of records of that site with class 1, and the values add
    up to the number of successes in the whole data set. *)
Theorem pie_all_sites_success_counts (df : DataFrame) :
  binary_class df ->
  exists fig,
    get_pie_chart df "ALL" = Ok fig
    /\ NoDup (map slice_label (pie_slices fig))
    /\ (forall site, Some site ∈ map slice_label (pie_slices fig)
                     <-> site ∈ map launch_site df)
    /\ (forall s, s ∈ pie_slices fig ->
          exists site, slice_label s = Some site
                       /\ slice_value s = outcome_count df site 1)
    /\ sum_Z (map slice_value (pie_slices fig)) = success_total df.
Proof.
  intros Hb. eexists. split; [apply get_pie_chart_all|].
  assert (Forall (fun s => 0 <= slice_value s) (pie_calc (site_rows df))) as Hpos.
  { apply Forall_forall. intros s Hs.
    destruct (site_rows_sectors df s Hb Hs) as (site & _ & _ & ->).
    unfold outcome_count. lia. }
  pose proof (pie_slices_perm
    (mkPie (site_rows df) true "Total Success Launches By Site") Hpos) as Hperm.
  simpl in Hperm.
  split; [|split; [|split]].
  - rewrite Hperm. apply foldl_add_row_NoDup. constructor.
  - intros site. rewrite Hperm. unfold pie_calc.
    rewrite foldl_add_row_labels. unfold site_rows. rewrite map_map. simpl.
    rewrite !elem_of_map. split.
    + intros [Hnil|(r & [= ->] & Hr)]; [by apply elem_of_nil in Hnil|].
      by exists r.
    + intros (r & -> & Hr). right. by exists r.
  - intros s Hs. rewrite Hperm in Hs.
    destruct (site_rows_sectors df s Hb Hs) as (site & _ & Hl & Hv).
    by exists site.
  - rewrite (sum_Z_perm _ _ (Permutation_map slice_value Hperm)).
    unfold pie_calc. rewrite foldl_add_row_sum. simpl.
    unfold site_rows. rewrite map_map. simpl.
    unfold success_total. by rewrite <- (sum_class_binary df Hb).
Qed.

Lemma pie_all_sites_success_counts_witness :
  binary_class pie_example
  /\ exists fig,
    get_pie_chart pie_example "ALL" = Ok fig
    /\ NoDup (map slice_label (pie_slices fig))
    /\ (forall site, Some site ∈ map slice_label (pie_slices fig)
                     <-> site ∈ map launch_site pie_example)
    /\ (forall s, s ∈ pie_slices fig ->
          exists site, slice_label s = Some site
                       /\ slice_value s = outcome_count pie_example site 1)
    /\ sum_Z (map slice_value (pie_slices fig)) = success_total pie_example.
Proof.
  assert (binary_class pie_example) as Hb.
  { unfold binary_class, pie_example. repeat constructor; simpl; lia. }
  split; [exact Hb|]. exact (pie_all_sites_success_counts pie_example Hb).
Defined.

(** The worked example: site A with three successes and one failure, site
    B with two failures; the chart of all sites has the sectors A = 3 and
    B = 0. *)
Example pie_example_all_sites :
  exists fig, get_pie_chart pie_example "ALL" = Ok fig
    /\ pie_slices fig = [mkSlice (Some "A") 3 None; mkSlice (Some "B") 0 None].
Proof. eexists. split; [apply get_pie_chart_all|reflexivity]. Qed.

(** ** The pie chart of one site *)

Lemma filter_eq_NoDup `{EqDecision A} (l : list A) (k : A) :
  NoDup l ->
  filter (fun v => v = k) l = if decide (k ∈ l) then [k] else [].
Proof.
  induction 1 as [|x l Hx _ IH].
  - destruct (decide (k ∈ [])) as [Hin|]; [by apply elem_of_nil in Hin|done].
  - rewrite filter_cons, IH. destruct (decide (x = k)) as [->|Hne].
    + rewrite decide_False by done. rewrite decide_True; [done|]. left.
    + destruct (decide (k ∈ l)) as [Hin|Hin].
      * rewrite decide_True; [done|]. by right.
      * rewrite decide_False; [done|]. rewrite elem_of_cons.
        intros [->|?]; done.
Qed.

Lemma count_occ_pos `{EqDecision A} (l : list A) (k : A) :
  0 < count_occ k l <-> k ∈ l.
Proof.
  unfold count_occ. split.
  - intros Hpos. destruct (filter (fun y => y = k) l) as [|x f] eqn:Hf;
      [simpl in Hpos; lia|].
    assert (x ∈ filter (fun y => y = k) l) as Hx by (rewrite Hf; left).
    apply list_elem_of_filter in Hx as [-> Hx]. done.
  - intros Hin.
    assert (k ∈ filter (fun y => y = k) l) as Hk
      by (by apply list_elem_of_filter).
    destruct (filter (fun y => y = k) l); [by apply elem_of_nil in Hk|].
    simpl. lia.
Qed.

(** The row of a value in [value_counts]: present exactly when the value
    occurs, with the number of its occurrences. *)
Lemma value_counts_row (s : list Z) (k : Z) :
  filter (fun row => fst row = k) (value_counts s)
  = if decide (0 < count_occ k s) then [(k, count_occ k s)] else [].
Proof.
  assert (filter (fun row => fst row = k) (value_counts s)
          ≡ₚ if decide (0 < count_occ k s) then [(k, count_occ k s)] else [])
    as Hperm.
  { unfold value_counts. rewrite sort_desc_perm.
    rewrite filter_map. simpl.
    rewrite (filter_eq_NoDup _ _ (NoDup_unique s)).
    destruct (decide (k ∈ unique s)) as [Hin|Hin];
      rewrite elem_of_unique, <- count_occ_pos in Hin.
    - by rewrite decide_True.
    - by rewrite decide_False. }
  destruct (decide (0 < count_occ k s)).
  - by apply Permutation_singleton_r in Hperm.
  - by apply Permutation_nil_r in Hperm.
Qed.

Lemma class_name_success (c : Z) : class_name c = Some "Success"%string <-> c = 1.
Proof.
  unfold class_name. destruct (decide (c = 0)), (decide (c = 1)); split;
    intros; try done; lia.
Qed.

Lemma class_name_failure (c : Z) : class_name c = Some "Failure"%string <-> c = 0.
Proof.
  unfold class_name. destruct (decide (c = 0)), (decide (c = 1)); split;
    intros; try done; lia.
Qed.

Lemma count_occ_class (df : DataFrame) (site : string) (c : Z) :
  count_occ c (map class (filter (fun r => launch_site r = site) df))
  = outcome_count df site c.
Proof.
  unfold count_occ, outcome_count. rewrite filter_map, length_map.
  rewrite list_filter_filter. do 2 f_equal.
  apply filter_iff. intros r _. tauto.
Qed.

Lemma site_frame_success (df : DataFrame) (site : string) :
  filter (fun row => fst row = Some "Success"%string) (site_frame df site)
  = if decide (0 < outcome_count df site 1)
    then [(Some "Success"%string, outcome_count df site 1)] else [].
Proof.
  unfold site_frame. rewrite filter_map. simpl.
  rewrite (filter_iff _ (fun row => fst row = 1))
    by (intros row _; apply class_name_success).
  rewrite value_counts_row, count_occ_class.
  by destruct (decide (0 < outcome_count df site 1)).
Qed.

Lemma site_frame_failure (df : DataFrame) (site : string) :
  filter (fun row => fst row = Some "Failure"%string) (site_frame df site)
  = if decide (0 < outcome_count df site 0)
    then [(Some "Failure"%string, outcome_count df site 0)] else [].
Proof.
  unfold site_frame. rewrite filter_map. simpl.
  rewrite (filter_iff _ (fun row => fst row = 0))
    by (intros row _; apply class_name_failure).
  rewrite value_counts_row, count_occ_class.
  by destruct (decide (0 < outcome_count df site 0)).
Qed.

Lemma site_frame_binary (df : DataFrame) (site : string) :
  binary_class df ->
  Forall (fun row => fst row = Some "Success"%string
                     \/ fst row = Some "Failure"%string) (site_frame df site).
Proof.
  intros Hb. apply Forall_forall. intros row Hrow.
  unfold site_frame in Hrow. apply elem_of_map in Hrow as ([c n] & -> & Hin).
  simpl. unfold value_counts in Hin. rewrite sort_desc_perm in Hin.
  apply elem_of_map in Hin as (v & [= -> ->] & Hv).
  apply elem_of_unique, elem_of_map in Hv as (r & -> & Hr).
  apply list_elem_of_filter in Hr as [_ Hr].
  unfold binary_class in Hb. rewrite Forall_forall in Hb.
  destruct (Hb r Hr) as [-> | ->]; [by right|by left].
Qed.

(** The rows of the frame come out label by label: Success, Failure, then
    whatever else there is. *)
Lemma reorder_rows_outcomes (frame : list (label * Z)) :
  exists rest,
    reorder_rows pie_category_orders frame
    = filter (fun row => fst row = Some "Success"%string) frame
      ++ filter (fun row => fst row = Some "Failure"%string) frame
      ++ rest
    /\ Forall (fun row => fst row <> Some "Success"%string
                          /\ fst row <> Some "Failure"%string) rest
    /\ (Forall (fun row => fst row = Some "Success"%string
                           \/ fst row = Some "Failure"%string) frame ->
        rest = []).
Proof.
  unfold reorder_rows, pie_category_orders.
  set (uniques := unique (map fst frame)).
  set (g := fun l : label => filter (fun row => fst row = l) frame).
  assert (forall L, flat_map g (filter (fun x => x ∈ uniques) L) = flat_map g L)
    as Hpresent.
  { induction L as [|l L IH]; [done|]. rewrite filter_cons.
    destruct (decide (l ∈ uniques)) as [Hin|Hin]; simpl; [by rewrite IH|].
    rewrite IH. replace (g l) with (@nil (label * Z)); [done|].
    symmetry. apply filter_none, Forall_forall. intros row Hrow Heq.
    apply Hin, elem_of_unique, elem_of_map. by exists row. }
  rewrite Hpresent. simpl.
  set (tail := filter (fun y => y <> Some "Success"%string)
                 (filter (fun y => y <> Some "Failure"%string) (unique uniques))).
  exists (flat_map g tail). split; [done|]. split.
  - apply Forall_forall. intros row Hrow.
    apply list_elem_of_In, in_flat_map in Hrow as (l & Hl & Hrow).
    apply list_elem_of_In in Hl, Hrow.
    apply list_elem_of_filter in Hrow as [-> _].
    apply list_elem_of_filter in Hl as [Hs Hl].
    apply list_elem_of_filter in Hl as [Hf _]. done.
  - intros Hall. replace tail with (@nil label); [done|].
    symmetry. apply filter_none, Forall_forall. intros l Hl Hs.
    apply list_elem_of_filter in Hl as [Hf Hl].
    apply elem_of_unique, elem_of_unique, elem_of_map in Hl as (row & -> & Hrow).
    rewrite Forall_forall in Hall. destruct (Hall row Hrow); done.
Qed.

Lemma assign_colors_length (m : gmap label string) (cats : list label) :
  length (assign_colors m cats) = length cats.
Proof.
  revert m. induction cats as [|cat cats IH]; intros m; simpl; [done|].
  destruct (m !! cat); simpl; by rewrite IH.
Qed.

Lemma colored_rows_labels (m : gmap label string) (frame : list (label * Z)) :
  map row_label (colored_rows m frame) = map fst frame.
Proof.
  unfold colored_rows. revert m.
  induction frame as [|row frame IH]; intros m; simpl; [done|].
  destruct (m !! fst row); simpl; by rewrite IH.
Qed.

(** A row whose label is in the colour map is coloured from the map, and
    the map stays as it is. *)
Lemma colored_rows_cons_known (m : gmap label string) (row : label * Z)
    (frame : list (label * Z)) (c : string) :
  m !! fst row = Some c ->
  colored_rows m (row :: frame)
  = mkRow (fst row) (snd row) (Some c) :: colored_rows m frame.
Proof. intros Hc. unfold colored_rows. simpl. by rewrite Hc. Qed.

Lemma pie_color_map_success :
  pie_color_map !! Some "Success"%string = Some "#636EFA"%string.
Proof. reflexivity. Qed.

Lemma pie_color_map_failure :
  pie_color_map !! Some "Failure"%string = Some "#EF553B"%string.
Proof. reflexivity. Qed.

(** Rows whose labels are new to the sectors so far are set after them. *)
Lemma foldl_add_row_disjoint (rows : list PieRow) (cd0 cd : list Slice) :
  Forall (fun r => row_label r ∉ map slice_label cd0) rows ->
  foldl (fun cd r => add_row r cd) (cd0 ++ cd) rows
  = cd0 ++ foldl (fun cd r => add_row r cd) cd rows.
Proof.
  intros Hrows. revert cd. induction Hrows as [|r rows Hr _ IH]; intros cd;
    simpl; [done|].
  rewrite <- IH. f_equal. clear IH.
  induction cd0 as [|s cd0 IH0]; simpl; [done|].
  simpl in Hr. apply not_elem_of_cons in Hr as [Hne Hr].
  rewrite decide_False by done. by rewrite IH0.
Qed.

Lemma get_pie_chart_site (df : DataFrame) (site : string) :
  site <> "ALL"%string ->
  get_pie_chart df site
  = Ok (mkPie (colored_rows pie_color_map
                 (reorder_rows pie_category_orders (site_frame df site)))
          false ("Total Success Launches for Site " +:+ site)).
Proof.
  intros Hsite. unfold get_pie_chart. by rewrite decide_False.
Qed.

Lemma outcome_slices_calc (n1 n0 : Z) (rest : list (label * Z)) :
  pie_calc (colored_rows pie_color_map
    ((if decide (0 < n1) then [(Some "Success"%string, n1)] else [])
     ++ (if decide (0 < n0) then [(Some "Failure"%string, n0)] else [])
     ++ rest))
  = foldl (fun cd r => add_row r cd) (outcome_slices n1 n0 ++ [])
      (colored_rows pie_color_map rest).
Proof.
  unfold outcome_slices, pie_calc.
  destruct (decide (0 < n1)), (decide (0 < n0)); simpl;
    repeat (rewrite (colored_rows_cons_known _ _ _ _ pie_color_map_success)
            || rewrite (colored_rows_cons_known _ _ _ _ pie_color_map_failure));
    reflexivity.
Qed.

(** The sectors of the chart of one site: Success with the number of
    successes, then Failure with the number of failures, each only when
    the number is positive, in the two colours of the colour map; anything
    after them carries another label, and there is nothing after them when
    the outcome column is binary. *)
Lemma site_pie_slices (df : DataFrame) (site : string) :
  site <> "ALL"%string ->
  exists fig extra,
    get_pie_chart df site = Ok fig
    /\ pie_title fig = ("Total Success Launches for Site " +:+ site)
    /\ pie_slices fig
       = outcome_slices (outcome_count df site 1) (outcome_count df site 0)
         ++ extra
    /\ Forall (fun s => slice_label s <> Some "Success"%string
                        /\ slice_label s <> Some "Failure"%string) extra
    /\ (binary_class df -> extra = []).
Proof.
  intros Hsite.
  destruct (reorder_rows_outcomes (site_frame df site))
    as (rest & Hre & Hrest & Hbin).
  rewrite site_frame_success, site_frame_failure in Hre.
  set (R := colored_rows pie_color_map rest).
  assert (Forall (fun r => row_label r <> Some "Success"%string
                           /\ row_label r <> Some "Failure"%string) R) as HR.
  { apply Forall_forall. intros r Hr.
    assert (row_label r ∈ map row_label R) as Hl
      by (apply elem_of_map; by exists r).
    unfold R in Hl. rewrite colored_rows_labels in Hl.
    apply elem_of_map in Hl as (row & -> & Hrow).
    rewrite Forall_forall in Hrest. by apply Hrest. }
  exists (mkPie (colored_rows pie_color_map
                   (reorder_rows pie_category_orders (site_frame df site)))
            false ("Total Success Launches for Site " +:+ site)).
  exists (filter (fun s => 0 <= slice_value s) (pie_calc R)).
  split; [by apply get_pie_chart_site|]. split; [done|].
  split; [|split].
  - unfold pie_slices. simpl. rewrite Hre, outcome_slices_calc.
    rewrite foldl_add_row_disjoint.
    + rewrite filter_app. f_equal.
      apply filter_all. unfold outcome_slices.
      destruct (decide (0 < outcome_count df site 1)),
        (decide (0 < outcome_count df site 0));
        simpl; repeat constructor; simpl; lia.
    + eapply Forall_impl; [exact HR|]. intros r [Hs Hf] Hin.
      unfold outcome_slices in Hin.
      destruct (decide (0 < outcome_count df site 1)),
        (decide (0 < outcome_count df site 0)); simpl in Hin;
        repeat (apply elem_of_cons in Hin as [Hin|Hin]; [congruence|]);
        by apply elem_of_nil in Hin.
  - apply Forall_forall. intros s Hs.
    apply list_elem_of_filter in Hs as [_ Hs].
    assert (slice_label s ∈ map slice_label (pie_calc R)) as Hl
      by (apply elem_of_map; by exists s).
    apply foldl_add_row_labels in Hl as [Hl|Hl]; [by apply elem_of_nil in Hl|].
    apply elem_of_map in Hl as (r & -> & Hr).
    rewrite Forall_forall in HR. by apply HR.
  - intros Hb. unfold R. by rewrite (Hbin (site_frame_binary df site Hb)).
Qed.

Lemma outcome_slices_elem (n1 n0 : Z) (s : Slice) :
  s ∈ outcome_slices n1 n0
  <-> (0 < n1 /\ s = mkSlice (Some "Success") n1 (Some "#636EFA"))
      \/ (0 < n0 /\ s = mkSlice (Some "Failure") n0 (Some "#EF553B")).
Proof.
  unfold outcome_slices.
  destruct (decide (0 < n1)), (decide (0 < n0)); simpl;
    rewrite ?elem_of_cons, ?elem_of_nil; tauto.
Qed.

Lemma outcome_slices_length (n1 n0 : Z) :
  (length (outcome_slices n1 n0) <= 2)%nat.
Proof.
  unfold outcome_slices.
  destruct (decide (0 < n1)), (decide (0 < n0)); simpl; lia.
Qed.

(** C2: for a site other than "ALL" the pie chart has at most two sectors,
    labelled by the mapping 0 to "Failure" and 1 to "Success"; the value of
    the Success sector is the number of records of the site with class 1
    (and there is such a sector exactly when that number is positive). *)
Theorem pie_site_outcome_counts (df : DataFrame) (site : string) :
  site <> "ALL"%string -> binary_class df ->
  exists fig,
    get_pie_chart df site = Ok fig
    /\ pie_slices fig
       = outcome_slices (outcome_count df site 1) (outcome_count df site 0)
    /\ (length (pie_slices fig) <= 2)%nat
    /\ (forall s, s ∈ pie_slices fig ->
          exists c, (c = 0 \/ c = 1) /\ slice_label s = class_name c
                    /\ slice_value s = outcome_count df site c)
    /\ (forall s, s ∈ pie_slices fig -> slice_label s = Some "Success"%string ->
          slice_value s = outcome_count df site 1)
    /\ (0 < outcome_count df site 1 <->
        exists s, s ∈ pie_slices fig /\ slice_label s = Some "Success"%string).
Proof.
  intros Hsite Hb.
  destruct (site_pie_slices df site Hsite)
    as (fig & extra & Hfig & _ & Hsl & _ & Hextra).
  rewrite (Hextra Hb), app_nil_r in Hsl.
  exists fig. split; [done|]. split; [done|]. rewrite Hsl.
  split; [apply outcome_slices_length|]. split; [|split; [|split]].
  - intros s Hs. apply outcome_slices_elem in Hs as [[_ ->]|[_ ->]].
    + exists 1. auto.
    + exists 0. auto.
  - intros s Hs Hl. apply outcome_slices_elem in Hs as [[_ ->]|[_ ->]];
      [done|discriminate Hl].
  - intros Hpos. eexists. split; [apply outcome_slices_elem; by left|done].
  - intros (s & Hs & Hl).
    apply outcome_slices_elem in Hs as [[Hpos _]|[_ ->]];
      [done|discriminate Hl].
Qed.

Lemma pie_site_outcome_counts_witness :
  "A"%string <> "ALL"%string /\ binary_class pie_example
  /\ exists fig,
    get_pie_chart pie_example "A" = Ok fig
    /\ pie_slices fig
       = outcome_slices (outcome_count pie_example "A" 1)
           (outcome_count pie_example "A" 0)
    /\ (length (pie_slices fig) <= 2)%nat
    /\ (forall s, s ∈ pie_slices fig ->
          exists c, (c = 0 \/ c = 1) /\ slice_label s = class_name c
                    /\ slice_value s = outcome_count pie_example "A" c)
    /\ (forall s, s ∈ pie_slices fig -> slice_label s = Some "Success"%string ->
          slice_value s = outcome_count pie_example "A" 1)
    /\ (0 < outcome_count pie_example "A" 1 <->
        exists s, s ∈ pie_slices fig /\ slice_label s = Some "Success"%string).
Proof.
  assert ("A"%string <> "ALL"%string) as Hsite by discriminate.
  assert (binary_class pie_example) as Hb.
  { unfold binary_class, pie_example. repeat constructor; simpl; lia. }
  split; [exact Hsite|]. split; [exact Hb|].
  exact (pie_site_outcome_counts pie_example "A" Hsite Hb).
Defined.

(** The worked example again: site A has the sectors Success = 3 and
    Failure = 1, site B only the sector Failure = 2. *)
Example pie_example_site_A :
  exists fig, get_pie_chart pie_example "A" = Ok fig
    /\ pie_slices fig = [mkSlice (Some "Success") 3 (Some "#636EFA");
                         mkSlice (Some "Failure") 1 (Some "#EF553B")].
Proof. eexists. split; [vm_compute; reflexivity|reflexivity]. Qed.

Example pie_example_site_B :
  exists fig, get_pie_chart pie_example "B" = Ok fig
    /\ pie_slices fig = [mkSlice (Some "Failure") 2 (Some "#EF553B")].
Proof. eexists. split; [vm_compute; reflexivity|reflexivity]. Qed.

(** ** Selections outside the data set *)

Lemma insert_sorted_perm (x : string) (l : list string) :
  insert_sorted x l ≡ₚ x :: l.
Proof.
  induction l as [|y l IH]; simpl; [done|].
  destruct (String.ltb x y); [done|]. rewrite IH. apply perm_swap.
Qed.

Lemma sorted_perm (l : list string) : sorted l ≡ₚ l.
Proof.
  induction l as [|x l IH]; simpl; [done|].
  by rewrite insert_sorted_perm, IH.
Qed.

Lemma elem_of_launch_sites (df : DataFrame) (site : string) :
  site ∈ launch_sites df <-> exists r, r ∈ df /\ launch_site r = site.
Proof.
  unfold launch_sites. rewrite sorted_perm, elem_of_unique, elem_of_map.
  split; intros (r & ? & ?); exists r; by split.
Qed.

Lemma get_pie_chart_total (df : DataFrame) (entered_site : string) :
  exists fig, get_pie_chart df entered_site = Ok fig.
Proof.
  unfold get_pie_chart. destruct (decide (entered_site = "ALL"%string)); eauto.
Qed.

(** C7, the claim as stated, on the example: it does not hold.  "C" is
    neither "ALL" nor a launch site of the example, and nothing is
    raised. *)
Lemma unknown_site_is_not_rejected :
  ~ (forall entered_site : string,
       entered_site <> "ALL"%string ->
       entered_site ∉ launch_sites pie_example ->
       get_pie_chart pie_example entered_site = Raise InvalidSelectionError).
Proof.
  intros Hclaim.
  assert (get_pie_chart pie_example "C" = Raise InvalidSelectionError) as H.
  { apply Hclaim; [discriminate|].
    rewrite elem_of_launch_sites. intros (r & Hr & Hsite).
    unfold pie_example in Hr.
    repeat (apply elem_of_cons in Hr as [->|Hr]; [discriminate Hsite|]).
    by apply elem_of_nil in Hr. }
  vm_compute in H. discriminate H.
Qed.

(** C7, amended: a site value that is neither "ALL" nor a launch site of
    the data set is not rejected; the chart comes back with the site in its
    title and without any sector.  [get_pie_chart] raises nothing on any
    input. *)
Theorem unknown_site_gives_empty_pie (df : DataFrame) (entered_site : string) :
  entered_site <> "ALL"%string -> entered_site ∉ launch_sites df ->
  get_pie_chart df entered_site
  = Ok (mkPie [] false ("Total Success Launches for Site " +:+ entered_site))
  /\ (forall fig, get_pie_chart df entered_site = Ok fig -> pie_slices fig = [])
  /\ (forall site e, get_pie_chart df site <> Raise e).
Proof.
  intros Hall Hsite.
  assert (get_pie_chart df entered_site
          = Ok (mkPie [] false
                  ("Total Success Launches for Site " +:+ entered_site))) as Hfig.
  { rewrite (get_pie_chart_site _ _ Hall). unfold site_frame.
    rewrite (filter_none (fun r => launch_site r = entered_site)); [done|].
    apply Forall_forall. intros r Hr Heq. apply Hsite.
    apply elem_of_launch_sites. by exists r. }
  split; [exact Hfig|]. split.
  - intros fig Hfig'. rewrite Hfig in Hfig'. by injection Hfig' as <-.
  - intros site e He. destruct (get_pie_chart_total df site) as [fig Hfig'].
    congruence.
Qed.

Lemma unknown_site_gives_empty_pie_witness :
  "C"%string <> "ALL"%string /\ ("C"%string ∉ launch_sites pie_example)
  /\ get_pie_chart pie_example "C"
     = Ok (mkPie [] false "Total Success Launches for Site C")
  /\ (forall fig, get_pie_chart pie_example "C" = Ok fig -> pie_slices fig = [])
  /\ (forall site e, get_pie_chart pie_example site <> Raise e).
Proof.
  assert ("C"%string <> "ALL"%string) as Hall by discriminate.
  assert ("C"%string ∉ launch_sites pie_example) as Hsite.
  { vm_compute. intros Hin.
    repeat (apply elem_of_cons in Hin as [Hin|Hin]; [discriminate Hin|]).
    by apply elem_of_nil in Hin. }
  split; [exact Hall|]. split; [exact Hsite|].
  exact (unknown_site_gives_empty_pie pie_example "C" Hall Hsite).
Defined.

(** ** The look of the outcome sectors *)

Lemma pie_slices_subset (fig : PieFigure) (s : Slice) :
  s ∈ pie_slices fig -> s ∈ pie_calc (pie_rows fig).
Proof.
  unfold pie_slices. intros Hs.
  destruct (pie_sort fig); [rewrite sort_desc_perm in Hs|];
    by apply list_elem_of_filter in Hs as [_ Hs].
Qed.

(** The chart of all sites: every sector is a launch site, and the figure
    gives it no colour. *)
Lemma all_sites_sectors (df : DataFrame) (fig : PieFigure) (s : Slice) :
  get_pie_chart df "ALL" = Ok fig -> s ∈ pie_slices fig ->
  slice_color s = None
  /\ exists r, r ∈ df /\ slice_label s = Some (launch_site r).
Proof.
  rewrite get_pie_chart_all. intros [= <-] Hs.
  apply pie_slices_subset in Hs. simpl in Hs. split.
  - destruct (slice_color s) as [c|] eqn:Hc; [|done].
    destruct (foldl_add_row_color _ _ _ _ Hs Hc)
      as [(s' & Hs' & _)|(r & Hr & _ & Hrc)].
    + by apply elem_of_nil in Hs'.
    + unfold site_rows in Hr. by apply elem_of_map in Hr as (r' & -> & _).
  - assert (slice_label s ∈ map slice_label (pie_calc (site_rows df))) as Hl
      by (apply elem_of_map; by exists s).
    apply foldl_add_row_labels in Hl as [Hl|Hl]; [by apply elem_of_nil in Hl|].
    apply elem_of_map in Hl as (row & -> & Hrow).
    unfold site_rows in Hrow. apply elem_of_map in Hrow as (r & -> & Hr).
    by exists r.
Qed.

Lemma outcome_slices_look (n1 n0 : Z) (extra : list Slice) :
  Forall (fun s => slice_label s <> Some "Success"%string
                   /\ slice_label s <> Some "Failure"%string) extra ->
  outcome_look (outcome_slices n1 n0 ++ extra).
Proof.
  intros Hextra. rewrite Forall_forall in Hextra.
  assert (forall a, a ∈ outcome_slices n1 n0 ++ extra ->
            slice_label a = Some "Success"%string
            \/ slice_label a = Some "Failure"%string ->
            a ∈ outcome_slices n1 n0) as Hin.
  { intros a Ha Hl. apply elem_of_app in Ha as [Ha|Ha]; [done|].
    destruct (Hextra a Ha). tauto. }
  split; [|split].
  - intros a Ha Hl. specialize (Hin a Ha (or_introl Hl)).
    apply outcome_slices_elem in Hin as [[_ ->]|[_ ->]]; [done|discriminate Hl].
  - intros a Ha Hl. specialize (Hin a Ha (or_intror Hl)).
    apply outcome_slices_elem in Hin as [[_ ->]|[_ ->]]; [discriminate Hl|done].
  - intros i j a b Hi Hj Ha Hb.
    assert (forall k c, extra !! k = Some c -> c <> a /\ c <> b) as Hne.
    { intros k c Hk. apply list_elem_of_lookup_2 in Hk.
      destruct (Hextra c Hk). split; congruence. }
    unfold outcome_slices in Hi, Hj.
    destruct (decide (0 < n1)), (decide (0 < n0)); simpl in Hi, Hj;
      destruct i as [|[|i]], j as [|[|j]]; simpl in Hi, Hj;
      try lia;
      try (injection Hi as <-; discriminate Ha);
      try (injection Hj as <-; discriminate Hb);
      try (destruct (Hne _ _ Hi); congruence);
      try (destruct (Hne _ _ Hj); congruence).
Qed.

(** The chart of one site has the fixed look, whatever the data. *)
Lemma site_chart_look (df : DataFrame) (site : string) (fig : PieFigure) :
  site <> "ALL"%string -> get_pie_chart df site = Ok fig ->
  outcome_look (pie_slices fig).
Proof.
  intros Hsite Hfig.
  destruct (site_pie_slices df site Hsite)
    as (fig' & extra & Hfig' & _ & Hsl & Hextra & _).
  rewrite Hfig in Hfig'. injection Hfig' as <-.
  rewrite Hsl. by apply outcome_slices_look.
Qed.

(** The chart of all sites has no outcome sector, unless a launch site is
    called like one. *)
Lemma all_sites_chart_look (df : DataFrame) (fig : PieFigure) (s : Slice) :
  sites_are_not_outcomes df ->
  get_pie_chart df "ALL" = Ok fig -> s ∈ pie_slices fig ->
  slice_label s <> Some "Success"%string
  /\ slice_label s <> Some "Failure"%string.
Proof.
  intros Hnames Hfig Hs.
  destruct (all_sites_sectors df fig s Hfig Hs) as (_ & r & Hr & ->).
  unfold sites_are_not_outcomes in Hnames. rewrite Forall_forall in Hnames.
  destruct (Hnames r Hr). split; congruence.
Qed.

Lemma chart_look (df : DataFrame) (site : string) (fig : PieFigure) :
  sites_are_not_outcomes df -> get_pie_chart df site = Ok fig ->
  outcome_look (pie_slices fig).
Proof.
  intros Hnames Hfig. destruct (decide (site = "ALL"%string)) as [->|Hsite].
  - replace (pie_slices fig) with (outcome_slices 0 0 ++ pie_slices fig)
      by done.
    apply outcome_slices_look, Forall_forall. intros s Hs.
    by apply (all_sites_chart_look df fig s).
  - by apply (site_chart_look df site).
Qed.

Lemma outcome_look_agree (cd1 cd2 : list Slice) :
  outcome_look cd1 -> outcome_look cd2 -> outcome_colors_agree cd1 cd2.
Proof.
  intros (Hs1 & Hf1 & _) (Hs2 & Hf2 & _) a b Ha Hb Hab [Hl|Hl].
  - rewrite (Hs1 a Ha Hl), (Hs2 b Hb); congruence.
  - rewrite (Hf1 a Ha Hl), (Hf2 b Hb); congruence.
Qed.

(** The condition on the site names cannot simply be dropped.  On a data
    set whose two launch sites are called "Failure" and "Success" the chart
    of all sites has a sector per site, largest first and without a colour
    of its own; there the sector "Failure" (two successes) comes before the
    sector "Success" (one). *)
Lemma outcome_look_not_fixed_for_outcome_named_sites :
  ~ outcome_look_fixed outcome_named_sites.
Proof.
  intros Hclaim.
  destruct (Hclaim "ALL"%string "Success"%string
              (mkPie (site_rows outcome_named_sites) true
                 "Total Success Launches By Site")
              (mkPie [mkRow (Some "Success") 1 (Some "#636EFA")] false
                 "Total Success Launches for Site Success"))
    as (_ & Horder & _); [discriminate|reflexivity|reflexivity|].
  specialize (Horder 1%nat 0%nat
                (mkSlice (Some "Success") 1 None)
                (mkSlice (Some "Failure") 2 None)
                eq_refl eq_refl eq_refl eq_refl).
  lia.
Qed.

(** On that data set: the chart of all sites, and the chart of the site
    called "Success". *)
Example outcome_named_sites_charts :
  (exists fig, get_pie_chart outcome_named_sites "ALL" = Ok fig
     /\ pie_slices fig = [mkSlice (Some "Failure") 2 None;
                          mkSlice (Some "Success") 1 None])
  /\ (exists fig, get_pie_chart outcome_named_sites "Success" = Ok fig
        /\ pie_slices fig = [mkSlice (Some "Success") 1 (Some "#636EFA")]).
Proof.
  split; eexists; (split; [vm_compute; reflexivity|reflexivity]).
Qed.

(** C5: for any two distinct selections of the site drop-down, "ALL"
    included, the Success sector has the same colour in both charts, so
    has the Failure sector, and Success comes before Failure in each,
    whichever of the two counts are zero.  The data set is one whose launch
    sites are not themselves called "Success" or "Failure" (third part).
    In detail: in the chart of every site other than "ALL", on any data
    set, the Success sector has the first colour of the palette, the
    Failure sector the second, and Success comes first (first part); the
    chart of all sites has one uncoloured sector per launch site, labelled
    with the site, and so no outcome sector (second part). *)
Theorem outcome_look_fixed_across_selections (df : DataFrame) :
  (forall (site1 site2 : string) (fig1 fig2 : PieFigure),
     site1 <> "ALL"%string -> site2 <> "ALL"%string ->
     get_pie_chart df site1 = Ok fig1 -> get_pie_chart df site2 = Ok fig2 ->
     outcome_look (pie_slices fig1)
     /\ outcome_colors_agree (pie_slices fig1) (pie_slices fig2))
  /\ (forall (fig : PieFigure) (s : Slice),
        get_pie_chart df "ALL" = Ok fig -> s ∈ pie_slices fig ->
        slice_color s = None
        /\ exists r, r ∈ df /\ slice_label s = Some (launch_site r))
  /\ (sites_are_not_outcomes df -> outcome_look_fixed df).
Proof.
  split; [|split].
  - intros site1 site2 fig1 fig2 H1 H2 Hfig1 Hfig2.
    pose proof (site_chart_look df site1 fig1 H1 Hfig1) as Hl1.
    pose proof (site_chart_look df site2 fig2 H2 Hfig2) as Hl2.
    split; [done|]. by apply outcome_look_agree.
  - intros fig s. apply all_sites_sectors.
  - intros Hnames site1 site2 fig1 fig2 _ Hfig1 Hfig2.
    pose proof (chart_look df site1 fig1 Hnames Hfig1) as Hl1.
    pose proof (chart_look df site2 fig2 Hnames Hfig2) as Hl2.
    split; [by apply outcome_look_agree|].
    split; [apply Hl1|apply Hl2].
Qed.

Lemma outcome_look_fixed_across_selections_witness :
  sites_are_not_outcomes pie_example
  /\ outcome_look_fixed pie_example
  /\ (forall fig1 fig2,
        get_pie_chart pie_example "A" = Ok fig1 ->
        get_pie_chart pie_example "B" = Ok fig2 ->
        outcome_look (pie_slices fig1)
        /\ outcome_colors_agree (pie_slices fig1) (pie_slices fig2)).
Proof.
  assert (sites_are_not_outcomes pie_example) as Hnames.
  { unfold sites_are_not_outcomes, pie_example.
    repeat constructor; simpl; discriminate. }
  pose proof (outcome_look_fixed_across_selections pie_example)
    as (Hsites & _ & Hfixed).
  split; [exact Hnames|]. split; [exact (Hfixed Hnames)|].
  intros fig1 fig2.
  apply (Hsites "A"%string "B"%string fig1 fig2); discriminate.
Defined.

(** ** The callbacks and the store *)

Lemma extends_refl (st : store) : extends st st.
Proof. split; [done|]. exists []. by rewrite app_nil_r. Qed.

Section Keeps.
Variable st0 : store.

Lemma keeps_ret {A} (a : A) (Q : A -> Prop) : Q a -> keeps st0 (mret a) Q.
Proof. intros Ha st Hst. split; [done|]. by intros a' [= <-]. Qed.

Lemma keeps_bind {A B} (m : M A) (k : A -> M B) (Q : A -> Prop) (R : B -> Prop) :
  keeps st0 m Q -> (forall a, Q a -> keeps st0 (k a) R) ->
  keeps st0 (m ≫= k) R.
Proof.
  intros Hm Hk st Hst. destruct (Hm st Hst) as [Hext Hq].
  unfold mbind, M_bind. destruct (m st) as [[a|e] st']; simpl in *.
  - by apply (Hk a (Hq a eq_refl)).
  - split; [done|]. intros b Hb. discriminate Hb.
Qed.

Lemma keeps_weaken {A} (m : M A) (Q Q' : A -> Prop) :
  keeps st0 m Q -> (forall a, Q a -> Q' a) -> keeps st0 m Q'.
Proof.
  intros Hm Hq st Hst. destruct (Hm st Hst) as [Hext Ha].
  split; [done|]. intros a Hma. by apply Hq, Ha.
Qed.

Lemma keeps_raise {A} (e : exception) (Q : A -> Prop) :
  keeps st0 (raise e) Q.
Proof. intros st Hst. split; [done|]. intros a Ha. discriminate Ha. Qed.

Lemma keeps_lift {A} (r : result A) : keeps st0 (lift r) (fun _ => True).
Proof. intros st Hst. by split. Qed.

Lemma keeps_name_spacex_df : keeps st0 name_spacex_df (fun _ => True).
Proof. intros st Hst. by split. Qed.

Lemma keeps_load (l : nat) : keeps st0 (load l) (fun _ => True).
Proof.
  intros st Hst. unfold load. by destruct (st_heap st !! l); split.
Qed.

(** A new object is set behind the old ones. *)
Lemma keeps_alloc (o : object) : keeps st0 (alloc o) (fresh st0).
Proof.
  intros st [Hg [k Hk]]. unfold alloc; simpl. split.
  - split; [done|]. exists (k ++ [o]). by rewrite Hk, app_assoc.
  - intros l [= <-]. unfold fresh. rewrite Hk, length_app. lia.
Qed.

(** Writing to an object made after [st0] leaves [st0] alone. *)
Lemma keeps_store_at (l : nat) (o : object) :
  fresh st0 l -> keeps st0 (store_at l o) (fun _ => True).
Proof.
  intros Hl st [Hg [k Hk]]. unfold store_at; simpl. split; [|done].
  split; [done|]. exists (<[(l - length (st_heap st0))%nat := o]> k).
  rewrite Hk. unfold fresh in Hl. by rewrite insert_app_r_alt.
Qed.

Lemma keeps_launch_rows (l : nat) : keeps st0 (launch_rows l) (fun _ => True).
Proof.
  unfold launch_rows. eapply keeps_bind; [apply keeps_load|].
  intros [rows|cols rows|cols rows] _;
    [by apply keeps_ret|apply keeps_raise..].
Qed.

Lemma keeps_select_rows (l : nat) (P : LaunchRecord -> Prop)
    `{forall r, Decision (P r)} :
  keeps st0 (select_rows l P) (fresh st0).
Proof.
  unfold select_rows. eapply keeps_bind; [apply keeps_launch_rows|].
  intros rows _. apply keeps_alloc.
Qed.

Lemma keeps_class_value_counts (l : nat) :
  keeps st0 (class_value_counts l) (fresh st0).
Proof.
  unfold class_value_counts. eapply keeps_bind; [apply keeps_launch_rows|].
  intros rows _. apply keeps_alloc.
Qed.

Lemma keeps_set_columns (l : nat) (names : list string) :
  fresh st0 l -> keeps st0 (set_columns l names) (fun _ => True).
Proof.
  intros Hl. unfold set_columns. eapply keeps_bind; [apply keeps_load|].
  intros [rows|cols rows|cols rows] _;
    [apply keeps_raise|by apply keeps_store_at..].
Qed.

Lemma keeps_map_class_column (l : nat) (names : Z -> label) :
  fresh st0 l -> keeps st0 (map_class_column l names) (fun _ => True).
Proof.
  intros Hl. unfold map_class_column. eapply keeps_bind; [apply keeps_load|].
  intros [rows|cols rows|cols rows] _;
    [apply keeps_raise|by apply keeps_store_at|apply keeps_raise].
Qed.

Lemma keeps_label_rows (l : nat) : keeps st0 (label_rows l) (fun _ => True).
Proof.
  unfold label_rows. eapply keeps_bind; [apply keeps_load|].
  intros [rows|cols rows|cols rows] _;
    [apply keeps_raise..|by apply keeps_ret].
Qed.

Lemma keeps_get_pie_chart_st (entered_site : string) :
  keeps st0 (get_pie_chart_st entered_site) (fun _ => True).
Proof.
  unfold get_pie_chart_st.
  eapply keeps_bind; [apply keeps_name_spacex_df|]. intros spacex_df _.
  destruct (decide (entered_site = "ALL"%string)).
  - eapply keeps_bind; [apply keeps_launch_rows|]. intros rows _.
    by apply keeps_ret.
  - eapply keeps_bind; [apply keeps_select_rows|]. intros selected_df _.
    eapply keeps_bind; [apply keeps_class_value_counts|].
    intros filtered_df Hfresh.
    eapply keeps_bind; [by apply keeps_set_columns|]. intros _ _.
    eapply keeps_bind; [by apply keeps_map_class_column|]. intros _ _.
    eapply keeps_bind; [apply keeps_label_rows|]. intros rows _.
    by apply keeps_ret.
Qed.

Lemma keeps_get_scatter_chart_st (entered_site : string)
    (entered_payload : list Z) :
  keeps st0 (get_scatter_chart_st entered_site entered_payload) (fun _ => True).
Proof.
  unfold get_scatter_chart_st.
  eapply keeps_bind; [apply keeps_lift|]. intros entered_payload_min _.
  eapply keeps_bind; [apply keeps_lift|]. intros entered_payload_max _.
  eapply keeps_bind; [apply keeps_name_spacex_df|]. intros spacex_df _.
  eapply keeps_bind; [apply keeps_select_rows|]. intros filtered_df _.
  eapply keeps_bind with (Q := fun _ => True).
  { destruct (decide (entered_site <> "ALL"%string)).
    - eapply keeps_weaken; [apply keeps_select_rows|done].
    - by apply keeps_ret. }
  intros filtered_df' _.
  eapply keeps_bind; [apply keeps_launch_rows|]. intros all_rows _.
  eapply keeps_bind; [apply keeps_lift|]. intros color_map _.
  eapply keeps_bind; [apply keeps_launch_rows|]. intros rows _.
  eapply keeps_bind; [apply keeps_lift|]. intros fig _.
  by apply keeps_ret.
Qed.

End Keeps.

Lemma lookup_snoc {A} (l : list A) (x : A) : (l ++ [x]) !! length l = Some x.
Proof. by rewrite lookup_app_r, Nat.sub_diag. Qed.

Lemma insert_snoc {A} (l : list A) (x y : A) :
  <[length l := y]> (l ++ [x]) = l ++ [y].
Proof. by rewrite insert_app_r_alt, Nat.sub_diag. Qed.

(** On a store that holds the data set the programs return what the
    functions of the data set return. *)
Lemma get_pie_chart_st_result (st : store) (df : DataFrame)
    (entered_site : string) :
  holds_dataset st df ->
  (get_pie_chart_st entered_site st).1 = get_pie_chart df entered_site.
Proof.
  intros Hdf. destruct st as [g heap]. unfold holds_dataset in Hdf. simpl in Hdf.
  unfold get_pie_chart_st, get_pie_chart, select_rows, class_value_counts,
    set_columns, map_class_column, label_rows, launch_rows, load, alloc,
    store_at, name_spacex_df, raise, mbind, mret, M_bind, M_ret.
  simpl. destruct (decide (entered_site = "ALL"%string)); simpl.
  - by rewrite Hdf.
  - rewrite Hdf. simpl. rewrite lookup_snoc. simpl.
    rewrite lookup_snoc. simpl. rewrite insert_snoc, lookup_snoc. simpl.
    rewrite insert_snoc, lookup_snoc. done.
Qed.

Lemma get_scatter_chart_st_result (st : store) (df : DataFrame)
    (entered_site : string) (entered_payload : list Z) :
  holds_dataset st df ->
  (get_scatter_chart_st entered_site entered_payload st).1
  = get_scatter_chart df entered_site entered_payload.
Proof.
  intros Hdf. destruct st as [g heap]. unfold holds_dataset in Hdf. simpl in Hdf.
  unfold get_scatter_chart_st, get_scatter_chart, select_rows, launch_rows,
    load, alloc, name_spacex_df, raise, lift, mbind, mret, M_bind, M_ret,
    result_bind.
  destruct (subscript entered_payload 0) as [lo|e]; simpl; [|done].
  destruct (subscript_last entered_payload) as [hi|e]; simpl; [|done].
  rewrite Hdf. simpl.
  destruct (decide (entered_site <> "ALL"%string)); simpl.
  - rewrite lookup_snoc. simpl. lookup_old Hdf. simpl.
    destruct (color_map_loop _ _ _); simpl; [|done].
    rewrite lookup_snoc. simpl. by destruct (px_scatter _ _ _ _).
  - lookup_old Hdf. simpl.
    destruct (color_map_loop _ _ _); simpl; [|done].
    rewrite lookup_snoc. simpl. by destruct (px_scatter _ _ _ _).
Qed.

(** C9: neither callback changes the data set.  After a call, whatever the
    inputs and whether it returned or raised, the module-level bindings
    (the frame, the payload bounds, the site list and the options) are the
    ones from before, every object that existed before is the same object
    with the same content, and what the call built lies behind them as new
    objects; in particular the name [spacex_df] still leads to the same
    records. *)
Theorem callbacks_leave_the_dataset_alone (st : store) (entered_site : string)
    (entered_payload : list Z) :
  let after_pie := (get_pie_chart_st entered_site st).2 in
  let after_scatter :=
    (get_scatter_chart_st entered_site entered_payload st).2 in
  (st_globals after_pie = st_globals st
   /\ st_heap st `prefix_of` st_heap after_pie
   /\ forall df, holds_dataset st df -> holds_dataset after_pie df)
  /\ (st_globals after_scatter = st_globals st
      /\ st_heap st `prefix_of` st_heap after_scatter
      /\ forall df, holds_dataset st df -> holds_dataset after_scatter df).
Proof.
  assert (forall st', extends st st' ->
            st_globals st' = st_globals st
            /\ st_heap st `prefix_of` st_heap st'
            /\ forall df, holds_dataset st df -> holds_dataset st' df) as Hext.
  { intros st' [Hg Hpre]. split; [done|]. split; [done|].
    intros df Hdf. unfold holds_dataset in *. rewrite Hg.
    destruct Hpre as [k ->]. by apply lookup_app_l_Some. }
  split; apply Hext.
  - apply (keeps_get_pie_chart_st st entered_site st (extends_refl st)).
  - apply (keeps_get_scatter_chart_st st entered_site entered_payload st
             (extends_refl st)).
Qed.

(** The worked examples, run on the store: the figures are those of the
    functions and the store still holds the example. *)
Example pie_example_on_the_store :
  (get_pie_chart_st "A" (initial_store pie_example)).1
  = get_pie_chart pie_example "A"
  /\ holds_dataset (get_pie_chart_st "A" (initial_store pie_example)).2
       pie_example.
Proof. split; reflexivity. Qed.

(** * Further properties of the program *)

(** ** The summaries computed at import time *)

Lemma foldl_min_elem (s : list Z) (x : Z) : foldl Z.min x s ∈ x :: s.
Proof.
  revert x. induction s as [|a s IH]; intros x; simpl; [left|].
  specialize (IH (Z.min x a)). apply elem_of_cons in IH as [->|IH].
  - destruct (Z.min_spec x a) as [[_ ->]|[_ ->]]; [left|right; left].
  - by do 2 right.
Qed.

Lemma foldl_max_elem (s : list Z) (x : Z) : foldl Z.max x s ∈ x :: s.
Proof.
  revert x. induction s as [|a s IH]; intros x; simpl; [left|].
  specialize (IH (Z.max x a)). apply elem_of_cons in IH as [->|IH].
  - destruct (Z.max_spec x a) as [[_ ->]|[_ ->]]; [right; left|left].
  - by do 2 right.
Qed.

(** X1.  [min_payload] and [max_payload] are NaN exactly on an empty data set;
    otherwise each is the payload mass of some record, and every payload
    mass lies between them. *)
Theorem payload_bounds (df : DataFrame) :
  (df = [] /\ min_payload df = None /\ max_payload df = None)
  \/ (exists low high,
        min_payload df = Some low /\ max_payload df = Some high
        /\ low <= high
        /\ (exists r, r ∈ df /\ payload_mass r = low)
        /\ (exists r, r ∈ df /\ payload_mass r = high)
        /\ (forall r, r ∈ df -> low <= payload_mass r /\ payload_mass r <= high)).
Proof.
  destruct df as [|r0 df]; [by left|right].
  unfold min_payload, max_payload. simpl.
  set (s := map payload_mass df).
  exists (foldl Z.min (payload_mass r0) s), (foldl Z.max (payload_mass r0) s).
  destruct (foldl_min_le s (payload_mass r0)) as [Hmin0 Hmin].
  destruct (foldl_max_ge s (payload_mass r0)) as [Hmax0 Hmax].
  rewrite Forall_forall in Hmin, Hmax.
  assert (forall x, x ∈ payload_mass r0 :: s ->
            exists r, r ∈ r0 :: df /\ payload_mass r = x) as Hrec.
  { intros x Hx. apply (elem_of_map payload_mass (r0 :: df) x) in Hx
      as (r & -> & Hr). by exists r. }
  split; [done|]. split; [done|]. split; [lia|].
  split; [apply Hrec, foldl_min_elem|]. split; [apply Hrec, foldl_max_elem|].
  intros r Hr. apply elem_of_cons in Hr as [->|Hr]; [lia|].
  assert (payload_mass r ∈ s) as Hs by (apply elem_of_map; by exists r).
  split; [by apply Hmin|by apply Hmax].
Qed.

(** The order of strings. *)
Lemma ascii_compare_trans (a b c : Ascii.ascii) (o : comparison) :
  Ascii.compare a b = o -> Ascii.compare b c = o -> Ascii.compare a c = o.
Proof.
  unfold Ascii.compare. intros <-.
  destruct (N.compare_spec (Ascii.N_of_ascii a) (Ascii.N_of_ascii b)) as [H1|H1|H1];
    intros H2.
  - apply N.compare_eq_iff in H2. apply N.compare_eq_iff. congruence.
  - apply N.compare_lt_iff. apply (N.lt_trans _ _ _ H1). exact H2.
  - rewrite N.compare_gt_iff in H2. apply N.compare_gt_iff.
    exact (N.lt_trans _ _ _ H2 H1).
Qed.

Lemma string_lt_trans (x y z : string) :
  string_lt x y -> string_lt y z -> string_lt x z.
Proof.
  unfold string_lt, String.ltb.
  assert (forall x y z, String.compare x y = Lt -> String.compare y z = Lt ->
            String.compare x z = Lt) as Htrans.
  { clear. induction x as [|a x IH]; intros [|b y] [|c z]; simpl; try done.
    destruct (Ascii.compare a b) eqn:Hab; try done;
      destruct (Ascii.compare b c) eqn:Hbc; try done; intros Hxy Hyz.
    - rewrite (ascii_compare_trans _ _ _ _ Hab Hbc). by eapply IH.
    - apply Ascii.compare_eq_iff in Hab as ->. by rewrite Hbc.
    - apply Ascii.compare_eq_iff in Hbc as <-. by rewrite Hab.
    - by rewrite (ascii_compare_trans _ _ _ _ Hab Hbc). }
  intros Hxy Hyz.
  destruct (String.compare x y) eqn:H1; try done.
  destruct (String.compare y z) eqn:H2; try done.
  by rewrite (Htrans _ _ _ H1 H2).
Qed.

Lemma string_lt_total (x y : string) :
  String.ltb x y = false -> x <> y -> string_lt y x.
Proof.
  unfold string_lt, String.ltb. rewrite (String.compare_antisym y x).
  destruct (String.compare x y) eqn:Hc; try done.
  intros _ Hne. by apply String.compare_eq_iff in Hc.
Qed.

Lemma insert_sorted_strongly (x : string) (l : list string) :
  StronglySorted string_lt l -> x ∉ l ->
  StronglySorted string_lt (insert_sorted x l).
Proof.
  induction 1 as [|y l Hl IH Hy]; intros Hx; simpl.
  - repeat constructor.
  - apply not_elem_of_cons in Hx as [Hxy Hx].
    destruct (String.ltb x y) eqn:Hlt.
    + constructor; [by constructor|]. constructor; [done|].
      eapply Forall_impl; [exact Hy|]. intros z Hz.
      by apply (string_lt_trans x y z).
    + constructor; [by apply IH|].
      apply Forall_forall. intros z Hz.
      rewrite insert_sorted_perm in Hz. apply elem_of_cons in Hz as [->|Hz].
      * by apply string_lt_total.
      * rewrite Forall_forall in Hy. by apply Hy.
Qed.

Lemma sorted_strongly (l : list string) :
  NoDup l -> StronglySorted string_lt (sorted l).
Proof.
  induction 1 as [|x l Hx _ IH]; simpl; [constructor|].
  apply insert_sorted_strongly; [done|]. by rewrite sorted_perm.
Qed.

(** X2.  [launch_sites] lists every launch site of the data set once, in
    strictly ascending order. *)
Theorem launch_sites_sorted_and_complete (df : DataFrame) :
  StronglySorted string_lt (launch_sites df)
  /\ NoDup (launch_sites df)
  /\ (forall site, site ∈ launch_sites df <-> site ∈ map launch_site df).
Proof.
  unfold launch_sites. split; [|split].
  - apply sorted_strongly, NoDup_unique.
  - rewrite sorted_perm. apply NoDup_unique.
  - intros site. by rewrite sorted_perm, elem_of_unique.
Qed.

(** ** When the scatter chart comes back *)

Lemma int64_column (df : DataFrame) :
  Forall (fun r => - 9223372036854775808 <= payload_mass r
                   /\ payload_mass r < 9223372036854775808) df ->
  column_dtype (map payload_mass df) = int64.
Proof.
  intros Hp. unfold column_dtype. rewrite decide_True; [done|].
  apply Forall_forall. intros x Hx. apply elem_of_map in Hx as (r & -> & Hr).
  rewrite Forall_forall in Hp. by apply Hp.
Qed.

Lemma sizes_accepted_int64 (df : DataFrame) (entered_site : string)
    (low high : Z) :
  column_dtype (map payload_mass df) = int64 ->
  sizes_accepted df entered_site low high
  <-> Forall (fun r => 0 <= payload_mass r)
        (filter (selected entered_site low high) df).
Proof.
  intros Hdt. unfold sizes_accepted. rewrite Hdt, !Forall_forall.
  split; intros H r Hr; [by apply H|split; [done|by apply H]].
Qed.

Lemma not_all_nonneg (l : DataFrame) :
  ~ Forall (fun r => 0 <= payload_mass r) l
  <-> Exists (fun r => payload_mass r < 0) l.
Proof.
  induction l as [|r l IH].
  - split; [intros H; destruct H; constructor|intros H; inversion H].
  - rewrite Forall_cons, Exists_cons, <- IH.
    destruct (decide (0 <= payload_mass r)) as [Hr|Hr].
    + split.
      * intros Hno. right. intros Hl. by apply Hno.
      * intros [?|Hl]; [lia|]. intros [_ ?]. by apply Hl.
    + split.
      * intros _. left. lia.
      * intros _ [? _]. lia.
Qed.

(** X8.  What [get_scatter_chart] comes back with.  It raises nothing but
    [IndexError] and [ValueError]; [IndexError] exactly when the range list
    is empty or the palette does not cover the booster categories of the
    data set.  On a data set whose payload masses fit 64-bit integers it
    returns a figure exactly when the range list is not empty, the palette
    covers the booster categories and no selected record has a negative
    payload mass, and it raises [ValueError] (plotly refusing a negative
    marker size) exactly when the range list is not empty, the palette
    covers the booster categories and some selected record has a negative
    payload mass.  So where no payload mass is negative a figure comes back
    exactly when the range list is not empty and the palette covers the
    booster categories. *)
Theorem get_scatter_chart_returns_iff (df : DataFrame) (entered_site : string)
    (entered_payload : list Z) :
  (forall e, get_scatter_chart df entered_site entered_payload = Raise e ->
     e = IndexError \/ e = ValueError)
  /\ (get_scatter_chart df entered_site entered_payload = Raise IndexError
      <-> entered_payload = [] \/ ~ palette_covers df)
  /\ (Forall (fun r => - 9223372036854775808 <= payload_mass r
                       /\ payload_mass r < 9223372036854775808) df ->
      ((exists fig, get_scatter_chart df entered_site entered_payload = Ok fig)
       <-> exists low high,
             entered_payload !! 0%nat = Some low
             /\ last entered_payload = Some high
             /\ palette_covers df
             /\ Forall (fun r => 0 <= payload_mass r)
                  (filter (fun r => (low <= payload_mass r
                                     /\ payload_mass r <= high)
                                    /\ (entered_site = "ALL"%string
                                        \/ launch_site r = entered_site)) df))
      /\ (get_scatter_chart df entered_site entered_payload = Raise ValueError
          <-> exists low high,
                entered_payload !! 0%nat = Some low
                /\ last entered_payload = Some high
                /\ palette_covers df
                /\ Exists (fun r => payload_mass r < 0)
                     (filter (fun r => (low <= payload_mass r
                                        /\ payload_mass r <= high)
                                       /\ (entered_site = "ALL"%string
                                           \/ launch_site r = entered_site))
                        df)))
  /\ (payloads_plottable df ->
      ((exists fig, get_scatter_chart df entered_site entered_payload = Ok fig)
       <-> entered_payload <> [] /\ palette_covers df)).
Proof.
  assert (forall fig,
            get_scatter_chart df entered_site entered_payload = Ok fig ->
            palette_covers df) as Hcovers.
  { intros fig Hfig.
    destruct (decide (length (unique (map booster_version_category df))
                      <= length Plotly)%nat) as [Hp|Hp]; [done|].
    rewrite get_scatter_chart_palette_exhausted in Hfig; [done..|].
    intros ->. discriminate Hfig. }
  destruct entered_payload as [|lo rest].
  { split; [|split; [|split]].
    - intros e He. left. by injection He.
    - split; [by left|done].
    - intros _. split.
      + split; [intros [fig Hfig]; discriminate Hfig|].
        intros (low & high & Hlo & _). discriminate Hlo.
      + split; [intros Hfig; discriminate Hfig|].
        intros (low & high & Hlo & _). discriminate Hlo.
    - intros _. split; [intros [fig Hfig]; discriminate Hfig|].
      by intros [? _]. }
  destruct (last (lo :: rest)) as [hi|] eqn:Hhi; [|by apply last_None in Hhi].
  assert ((lo :: rest) !! 0%nat = Some lo) as Hlo by done.
  assert (get_scatter_chart df entered_site (lo :: rest) = Raise IndexError
          <-> ~ palette_covers df) as Hindex.
  { split.
    - intros Hfig Hp.
      destruct (decide (sizes_accepted df entered_site lo hi)) as [Hs|Hs].
      + destruct (get_scatter_chart_ok df entered_site (lo :: rest) lo hi
                    Hp Hs Hlo Hhi) as (cm & _ & Hfig'). congruence.
      + rewrite (get_scatter_chart_sizes_rejected _ _ _ _ _ Hp Hlo Hhi Hs)
          in Hfig. discriminate Hfig.
    - intros Hp. by apply get_scatter_chart_palette_exhausted. }
  split; [|split; [|split]].
  - intros e He.
    destruct (get_scatter_chart_outcomes df entered_site (lo :: rest))
      as [[fig Hfig]|[Hfig|Hfig]]; [congruence|left|right]; congruence.
  - rewrite Hindex. split; [by right|]. by intros [?|?].
  - intros Hint. pose proof (int64_column df Hint) as Hdt.
    pose proof (sizes_accepted_int64 df entered_site lo hi Hdt) as Hacc.
    split; split.
    + intros [fig Hfig]. exists lo, hi. do 2 (split; [done|]).
      split; [by eapply Hcovers|]. apply Hacc.
      exact (get_scatter_chart_sizes _ _ _ _ _ _ Hlo Hhi Hfig).
    + intros (low & high & Hlo' & Hhi' & Hp & Hs).
      assert (low = lo) as -> by (simpl in Hlo'; congruence).
      assert (high = hi) as -> by congruence.
      apply Hacc in Hs.
      destruct (get_scatter_chart_ok df entered_site (lo :: rest) lo hi
                  Hp Hs Hlo Hhi) as (cm & _ & Hfig).
      by eexists.
    + intros Hfig. exists lo, hi. do 2 (split; [done|]).
      assert (palette_covers df) as Hp.
      { destruct (decide (length (unique (map booster_version_category df))
                          <= length Plotly)%nat) as [Hp|Hp]; [done|].
        rewrite get_scatter_chart_palette_exhausted in Hfig; done. }
      split; [done|].
      apply (not_all_nonneg (filter (selected entered_site lo hi) df)).
      intros Hs. apply Hacc in Hs.
      destruct (get_scatter_chart_ok df entered_site (lo :: rest) lo hi
                  Hp Hs Hlo Hhi) as (cm & _ & Hfig'). congruence.
    + intros (low & high & Hlo' & Hhi' & Hp & Hs).
      assert (low = lo) as -> by (simpl in Hlo'; congruence).
      assert (high = hi) as -> by congruence.
      apply (not_all_nonneg (filter (selected entered_site lo hi) df)) in Hs.
      apply (get_scatter_chart_sizes_rejected _ _ _ _ _ Hp Hlo Hhi).
      by rewrite Hacc.
  - intros Hpl. split.
    + intros [fig Hfig]. split; [done|]. by eapply Hcovers.
    + intros [_ Hp].
      destruct (get_scatter_chart_ok df entered_site (lo :: rest) lo hi Hp
                  (payloads_plottable_accepted _ _ _ _ Hpl) Hlo Hhi)
        as (cm & _ & Hfig).
      by eexists.
Qed.

Lemma get_scatter_chart_returns_iff_witness :
  Forall (fun r => - 9223372036854775808 <= payload_mass r
                   /\ payload_mass r < 9223372036854775808)
    negative_payload_example
  /\ palette_covers negative_payload_example
  /\ get_scatter_chart negative_payload_example "ALL" [-10; 10]
     = Raise ValueError
  /\ exists fig,
       get_scatter_chart negative_payload_example "ALL" [0; 10] = Ok fig.
Proof.
  assert (Forall (fun r => - 9223372036854775808 <= payload_mass r
                           /\ payload_mass r < 9223372036854775808)
            negative_payload_example) as Hint
    by (unfold negative_payload_example; repeat constructor; simpl; lia).
  assert (palette_covers negative_payload_example) as Hp
    by (unfold palette_covers; simpl; lia).
  split; [exact Hint|]. split; [exact Hp|]. split.
  - pose proof (get_scatter_chart_returns_iff negative_payload_example "ALL"
                  [-10; 10]) as (_ & _ & Hexact & _).
    apply (Hexact Hint). exists (-10), 10.
    split; [reflexivity|]. split; [reflexivity|]. split; [exact Hp|].
    apply Exists_exists. exists (mkLaunch "A" (-5) 1 "v1.0").
    split; [|simpl; lia].
    apply list_elem_of_filter. split; [|apply list_elem_of_here].
    simpl. split; [lia|by left].
  - pose proof (get_scatter_chart_returns_iff negative_payload_example "ALL"
                  [0; 10]) as (_ & _ & Hexact & _).
    apply (Hexact Hint). exists 0, 10.
    split; [reflexivity|]. split; [reflexivity|]. split; [exact Hp|].
    apply Forall_forall. intros r Hr.
    apply list_elem_of_filter in Hr as [[Hr _] _]. lia.
Defined.

(** ** The traces of a scatter chart *)

Lemma traces_of_selection (df : DataFrame) (entered_site : string)
    (entered_payload : list Z) (fig : ScatterFigure) :
  get_scatter_chart df entered_site entered_payload = Ok fig ->
  exists low high color_map,
    entered_payload !! 0%nat = Some low /\ last entered_payload = Some high
    /\ traces fig
       = scatter_traces (filter (selected entered_site low high) df) color_map
           (unique (map booster_version_category
                      (filter (selected entered_site low high) df))).
Proof.
  intros Hfig.
  apply get_scatter_chart_inv in Hfig as (low & high & cm & Hlo & Hhi & _ & ->).
  by exists low, high, cm.
Qed.

(** X9.  The traces of a chart are the booster categories of the selected
    records, each once and in the order in which they first appear among
    those records, and no trace is without points. *)
Theorem traces_are_the_selected_categories (df : DataFrame)
    (entered_site : string) (entered_payload : list Z) (fig : ScatterFigure) :
  get_scatter_chart df entered_site entered_payload = Ok fig ->
  NoDup (map trace_name (traces fig))
  /\ Forall (fun t => trace_points t <> []) (traces fig)
  /\ exists low high,
       entered_payload !! 0%nat = Some low /\ last entered_payload = Some high
       /\ map trace_name (traces fig)
          = unique (map booster_version_category
                      (filter (selected entered_site low high) df)).
Proof.
  intros Hfig.
  destruct (traces_of_selection _ _ _ _ Hfig) as (low & high & cm & Hlo & Hhi & Htr).
  assert (map trace_name (traces fig)
          = unique (map booster_version_category
                      (filter (selected entered_site low high) df))) as Hnames
    by (by rewrite Htr, scatter_traces_names).
  split; [rewrite Hnames; apply NoDup_unique|]. split; [|by exists low, high].
  apply Forall_forall. intros t Ht.
  assert (trace_name t ∈ map trace_name (traces fig)) as Hn
    by (apply elem_of_map; by exists t).
  rewrite Hnames in Hn. apply elem_of_unique, elem_of_map in Hn as (r & Hr & Hin).
  rewrite Htr in Ht. rewrite (scatter_traces_trace_points _ _ _ _ Ht).
  intros Hnil. apply map_eq_nil in Hnil.
  assert (r ∈ filter (fun r => booster_version_category r = trace_name t)
                (filter (selected entered_site low high) df)) as Hrin
    by (by apply list_elem_of_filter).
  rewrite Hnil in Hrin. by apply elem_of_nil in Hrin.
Qed.

Lemma traces_are_the_selected_categories_witness :
  get_scatter_chart scatter_example "A" [0; 5000]
  = Ok (update_yaxes (scatter_figure (filter (selected "A" 0 5000) scatter_example)
          (<["FT" := "#00CC96"]> (<["v1.1" := "#EF553B"]>
             (<["v1.0" := "#636EFA"]> ∅)))
          (scatter_title "A")))
  /\ exists fig,
       NoDup (map trace_name (traces fig))
       /\ Forall (fun t => trace_points t <> []) (traces fig)
       /\ exists low high,
            [0; 5000] !! 0%nat = Some low /\ last [0; 5000] = Some high
            /\ map trace_name (traces fig)
               = unique (map booster_version_category
                           (filter (selected "A" low high) scatter_example)).
Proof.
  split; [reflexivity|]. eexists.
  exact (traces_are_the_selected_categories scatter_example "A" [0; 5000] _
           eq_refl).
Defined.

Lemma NoDup_Plotly : NoDup Plotly.
Proof.
  unfold Plotly. repeat (apply NoDup_cons; split;
    [rewrite ?elem_of_cons, elem_of_nil; intros Hin;
     repeat (destruct Hin as [Hin|Hin]; [discriminate Hin|]); done|]).
  constructor.
Qed.

(** X10.  Two booster categories never share a colour: traces of different names,
    in one chart or in two charts of the same data set, have different
    colours. *)
Theorem different_categories_different_colors (df : DataFrame)
    (site1 site2 : string) (range1 range2 : list Z)
    (fig1 fig2 : ScatterFigure) (t1 t2 : ScatterTrace) :
  get_scatter_chart df site1 range1 = Ok fig1 ->
  get_scatter_chart df site2 range2 = Ok fig2 ->
  t1 ∈ traces fig1 -> t2 ∈ traces fig2 ->
  trace_name t1 <> trace_name t2 ->
  marker_color t1 <> marker_color t2.
Proof.
  intros Hfig1 Hfig2 Ht1 Ht2 Hne Hc.
  destruct (trace_color_by_first_appearance _ _ _ _ _ Hfig1 Ht1) as (i & Hi & Hci).
  destruct (trace_color_by_first_appearance _ _ _ _ _ Hfig2 Ht2) as (j & Hj & Hcj).
  rewrite Hc in Hci.
  pose proof (NoDup_lookup _ _ _ _ NoDup_Plotly Hci Hcj) as ->.
  congruence.
Qed.

Lemma different_categories_different_colors_witness :
  let fig := update_yaxes (scatter_figure
               (filter (selected "ALL" 0 10000) scatter_example)
               (<["FT" := "#00CC96"]> (<["v1.1" := "#EF553B"]>
                  (<["v1.0" := "#636EFA"]> ∅)))
               (scatter_title "ALL")) in
  let t1 := mkTrace "v1.1" "#EF553B" [mkPoint 2000 0 2000] in
  let t2 := mkTrace "FT" "#00CC96" [mkPoint 6000 1 6000] in
  get_scatter_chart scatter_example "ALL" [0; 10000] = Ok fig
  /\ t1 ∈ traces fig /\ t2 ∈ traces fig
  /\ trace_name t1 <> trace_name t2
  /\ marker_color t1 <> marker_color t2.
Proof.
  intros fig t1 t2.
  assert (get_scatter_chart scatter_example "ALL" [0; 10000] = Ok fig) as H
    by reflexivity.
  assert (t1 ∈ traces fig) as Ht1.
  { vm_compute. apply list_elem_of_further, list_elem_of_here. }
  assert (t2 ∈ traces fig) as Ht2.
  { vm_compute. do 2 apply list_elem_of_further. apply list_elem_of_here. }
  assert (trace_name t1 <> trace_name t2) as Hne by discriminate.
  do 4 (split; [assumption|]).
  exact (different_categories_different_colors scatter_example "ALL" "ALL"
           [0; 10000] [0; 10000] fig fig t1 t2 H H Ht1 Ht2 Hne).
Defined.

(** ** Charts of different selections *)

Lemma filter_sublist_impl {A} (P Q : A -> Prop)
    `{forall x, Decision (P x)} `{forall x, Decision (Q x)} (l : list A) :
  (forall x, P x -> Q x) -> filter P l `sublist_of` filter Q l.
Proof.
  intros Hpq. induction l as [|a l IH]; [constructor|].
  rewrite !filter_cons.
  destruct (decide (P a)) as [Hp|Hp], (decide (Q a)) as [Hq|Hq].
  - by apply sublist_skip.
  - destruct Hq. by apply Hpq.
  - by apply sublist_cons.
  - done.
Qed.

Lemma trace_of_category (frame : DataFrame) (vm : gmap string string)
    (groups : list string) (b : string) :
  b ∈ groups ->
  exists t, t ∈ scatter_traces frame vm groups /\ trace_name t = b.
Proof.
  intros Hb.
  rewrite <- (scatter_traces_names frame vm groups) in Hb.
  apply elem_of_map in Hb as (t & -> & Ht). by exists t.
Qed.

Lemma sizes_accepted_subset (df : DataFrame) (site site' : string)
    (low high low' high' : Z) :
  (forall r, r ∈ df -> selected site low high r -> selected site' low' high' r) ->
  sizes_accepted df site' low' high' -> sizes_accepted df site low high.
Proof.
  intros Hsel Hs. unfold sizes_accepted in *. rewrite Forall_forall in *.
  intros r Hr. apply Hs. apply list_elem_of_filter in Hr as [Hr Hin].
  apply list_elem_of_filter. split; [by apply Hsel|done].
Qed.

(** A chart that came back settles the palette; any other selection of
    the same data set that plotly accepts comes back with that palette. *)
Lemma get_scatter_chart_other_selection (df : DataFrame) (site site' : string)
    (range : list Z) (low' high' : Z) (fig : ScatterFigure) :
  get_scatter_chart df site range = Ok fig ->
  sizes_accepted df site' low' high' ->
  exists cm,
    color_map_loop 0 (unique (map booster_version_category df)) ∅ = Ok cm
    /\ get_scatter_chart df site' [low'; high']
       = Ok (update_yaxes (scatter_figure
               (filter (selected site' low' high') df) cm
               (scatter_title site'))).
Proof.
  intros Hfig Hs.
  apply get_scatter_chart_inv in Hfig as (lo & hi & cm & _ & _ & Hcm & _).
  exists cm. split; [done|].
  rewrite (get_scatter_chart_unfold _ _ _ low' high') by done.
  rewrite Hcm. simpl. by rewrite (px_scatter_accepts _ _ _ _ Hs).
Qed.

(** X11.  Narrowing the payload range only takes away from a chart: when the
    chart of a range comes back, so does the chart of every range within
    it, and every trace of the narrower chart is there in the wider one,
    under the same name and in the same colour, with its points kept in
    their order among the points of the wider trace. *)
Theorem wider_range_keeps_every_point (df : DataFrame) (entered_site : string)
    (low high low' high' : Z) (fig' : ScatterFigure) :
  low' <= low -> high <= high' ->
  get_scatter_chart df entered_site [low'; high'] = Ok fig' ->
  exists fig,
    get_scatter_chart df entered_site [low; high] = Ok fig
    /\ forall t, t ∈ traces fig ->
         exists t',
           t' ∈ traces fig'
           /\ trace_name t' = trace_name t
           /\ marker_color t' = marker_color t
           /\ trace_points t `sublist_of` trace_points t'.
Proof.
  intros Hlo Hhi Hfig'.
  assert (forall r, selected entered_site low high r ->
                    selected entered_site low' high' r) as Hsel.
  { intros r [[? ?] ?]. split; [lia|done]. }
  pose proof (get_scatter_chart_sizes df entered_site [low'; high'] low' high' _
                eq_refl eq_refl Hfig')
    as Hs'.
  assert (sizes_accepted df entered_site low high) as Hs
    by (apply (sizes_accepted_subset _ _ _ _ _ _ _ (fun r _ => Hsel r) Hs')).
  destruct (get_scatter_chart_other_selection _ _ entered_site _ low high _
              Hfig' Hs) as (cm & Hcm & Hfig).
  pose proof Hfig' as Hinv.
  apply get_scatter_chart_inv in Hinv
    as (lo & hi & cm' & [= <-] & [= <-] & Hcm' & Heq).
  assert (cm' = cm) as -> by congruence.
  eexists. split; [exact Hfig|]. intros t Ht.
  pose proof (trace_color_by_first_appearance _ _ _ _ _ Hfig Ht)
    as (i & Hi & Hci).
  simpl in Ht.
  assert (trace_name t ∈ unique (map booster_version_category
            (filter (selected entered_site low' high') df))) as Hname.
  { assert (trace_name t ∈ map trace_name
              (scatter_traces (filter (selected entered_site low high) df) cm
                 (unique (map booster_version_category
                            (filter (selected entered_site low high) df)))))
      as Hn by (apply elem_of_map; by exists t).
    rewrite scatter_traces_names in Hn.
    apply elem_of_unique, elem_of_map in Hn as (r & Hr & Hin).
    apply list_elem_of_filter in Hin as [Hsr Hin].
    apply elem_of_unique, elem_of_map. exists r. split; [done|].
    apply list_elem_of_filter. split; [by apply Hsel|done]. }
  destruct (trace_of_category (filter (selected entered_site low' high') df)
              cm _ _ Hname) as (t' & Ht' & Hn').
  assert (t' ∈ traces fig') as Ht'fig by (by rewrite Heq).
  exists t'. split; [exact Ht'fig|].
  split; [done|]. split.
  - pose proof (trace_color_by_first_appearance _ _ _ _ _ Hfig' Ht'fig)
      as (j & Hj & Hcj).
    rewrite Hn' in Hj.
    pose proof (NoDup_lookup _ _ _ _ (NoDup_unique _) Hi Hj) as ->.
    congruence.
  - rewrite (scatter_traces_trace_points _ _ _ _ Ht).
    rewrite (scatter_traces_trace_points _ _ _ _ Ht'), Hn'.
    rewrite !list_filter_filter. apply fmap_sublist, filter_sublist_impl.
    intros r [? ?]. split; [done|by apply Hsel].
Qed.

Lemma wider_range_keeps_every_point_witness :
  let fig' := update_yaxes (scatter_figure
                (filter (selected "A" 0 7000) scatter_example)
                (<["FT" := "#00CC96"]> (<["v1.1" := "#EF553B"]>
                   (<["v1.0" := "#636EFA"]> ∅)))
                (scatter_title "A")) in
  0 <= 0 /\ 5000 <= 7000
  /\ get_scatter_chart scatter_example "A" [0; 7000] = Ok fig'
  /\ exists fig,
       get_scatter_chart scatter_example "A" [0; 5000] = Ok fig
       /\ forall t, t ∈ traces fig ->
            exists t',
              t' ∈ traces fig'
              /\ trace_name t' = trace_name t
              /\ marker_color t' = marker_color t
              /\ trace_points t `sublist_of` trace_points t'.
Proof.
  intros fig'.
  assert (0 <= 0) as Hlo by lia.
  assert (5000 <= 7000) as Hhi by lia.
  assert (get_scatter_chart scatter_example "A" [0; 7000] = Ok fig') as H
    by reflexivity.
  do 3 (split; [assumption|]).
  exact (wider_range_keeps_every_point scatter_example "A" 0 5000 0 7000 fig'
           Hlo Hhi H).
Defined.

Lemma flat_map_perm_pointwise {A B} (f g : A -> list B) (l : list A) :
  (forall a, a ∈ l -> f a ≡ₚ g a) -> flat_map f l ≡ₚ flat_map g l.
Proof.
  induction l as [|a l IH]; intros Hfg; simpl; [done|].
  rewrite (Hfg a) by left. rewrite IH; [done|].
  intros b Hb. apply Hfg. by right.
Qed.

Lemma flat_map_ext_in {A B} (f g : A -> list B) (l : list A) :
  (forall a, a ∈ l -> f a = g a) -> flat_map f l = flat_map g l.
Proof.
  induction l as [|a l IH]; intros Hfg; simpl; [done|].
  rewrite (Hfg a) by left. rewrite IH; [done|].
  intros b Hb. apply Hfg. by right.
Qed.

(** X12.  The chart of all sites is the charts of the single sites put together:
    when the chart of all sites comes back for a payload range, so does the
    chart of every launch site for that range, and the points of the chart
    of all sites are those of the charts of the launch sites, taken over
    all launch sites.  This needs that no launch site is itself called
    "ALL". *)
Theorem all_sites_chart_joins_the_site_charts (df : DataFrame) (low high : Z)
    (fig_all : ScatterFigure) :
  "ALL"%string ∉ launch_sites df ->
  get_scatter_chart df "ALL" [low; high] = Ok fig_all ->
  exists figs,
    Forall2 (fun site fig => get_scatter_chart df site [low; high] = Ok fig)
      (launch_sites df) figs
    /\ scatter_points fig_all ≡ₚ flat_map scatter_points figs.
Proof.
  intros Hall Hfig_all.
  pose proof (get_scatter_chart_sizes df "ALL" [low; high] low high _
                eq_refl eq_refl Hfig_all)
    as Hs_all.
  pose proof Hfig_all as Hinv.
  apply get_scatter_chart_inv in Hinv
    as (lo & hi & cm & [= <-] & [= <-] & Hcm & ->).
  set (chart := fun site =>
         update_yaxes (scatter_figure (filter (selected site low high) df) cm
                         (scatter_title site))).
  assert (forall site, get_scatter_chart df site [low; high] = Ok (chart site))
    as Hchart.
  { intros site.
    assert (sizes_accepted df site low high) as Hs.
    { apply (sizes_accepted_subset df site "ALL" low high low high);
        [|done].
      intros r _ [Hrange _]. split; [done|by left]. }
    destruct (get_scatter_chart_other_selection _ _ site _ low high _
                Hfig_all Hs) as (cm' & Hcm' & Hfig).
    by assert (cm' = cm) as -> by congruence. }
  exists (map chart (launch_sites df)). split.
  - apply Forall2_fmap_r, Forall_Forall2_diag, Forall_forall.
    intros site _. apply Hchart.
  - rewrite scatter_figure_points.
    rewrite flat_map_concat_map, map_map, <- flat_map_concat_map.
    rewrite (flat_map_perm_pointwise _
               (fun site => map point_of (filter (selected site low high) df)))
      by (intros site _; apply scatter_figure_points).
    rewrite flat_map_map. apply Permutation_map.
    set (F := filter (fun r => low <= payload_mass r /\ payload_mass r <= high) df).
    rewrite (filter_iff (selected "ALL" low high)
               (fun r => low <= payload_mass r /\ payload_mass r <= high))
      by (intros r _; unfold selected; tauto).
    rewrite (flat_map_ext_in _
               (fun site => filter (fun r => launch_site r = site) F)).
    + rewrite groups_perm
        by (unfold launch_sites; rewrite sorted_perm; apply NoDup_unique).
      rewrite (filter_all (fun r => launch_site r ∈ launch_sites df));
        [reflexivity|]. apply Forall_forall. intros r Hr.
      apply list_elem_of_filter in Hr as [_ Hr].
      apply elem_of_launch_sites. by exists r.
    + intros site Hsite. unfold F. rewrite list_filter_filter.
      apply filter_iff. intros r _. unfold selected. split.
      * intros [Hrange [->|Hs]]; [done|by split].
      * intros [Hs Hrange]. split; [done|by right].
Qed.

Lemma all_sites_chart_joins_the_site_charts_witness :
  let fig_all := update_yaxes (scatter_figure
                   (filter (selected "ALL" 0 5000) scatter_example)
                   (<["FT" := "#00CC96"]> (<["v1.1" := "#EF553B"]>
                      (<["v1.0" := "#636EFA"]> ∅)))
                   (scatter_title "ALL")) in
  ("ALL"%string ∉ launch_sites scatter_example)
  /\ get_scatter_chart scatter_example "ALL" [0; 5000] = Ok fig_all
  /\ exists figs,
    Forall2 (fun site fig =>
               get_scatter_chart scatter_example site [0; 5000] = Ok fig)
      (launch_sites scatter_example) figs
    /\ scatter_points fig_all ≡ₚ flat_map scatter_points figs.
Proof.
  intros fig_all.
  assert ("ALL"%string ∉ launch_sites scatter_example) as Hall.
  { vm_compute. intros Hin.
    repeat (apply elem_of_cons in Hin as [Hin|Hin]; [discriminate Hin|]).
    by apply elem_of_nil in Hin. }
  assert (get_scatter_chart scatter_example "ALL" [0; 5000] = Ok fig_all) as H
    by reflexivity.
  split; [exact Hall|]. split; [exact H|].
  exact (all_sites_chart_joins_the_site_charts scatter_example 0 5000 fig_all
           Hall H).
Defined.

(** X13.  Every point of a chart lies within the payload range of the slider, is
    drawn with its payload mass as size, and, the outcome column being
    binary, sits on one of the two ticks of the y axis. *)
Theorem points_lie_within_the_controls (df : DataFrame) (entered_site : string)
    (entered_payload : list Z) (fig : ScatterFigure) (p : Point) :
  binary_class df ->
  get_scatter_chart df entered_site entered_payload = Ok fig ->
  p ∈ scatter_points fig ->
  exists low high,
    entered_payload !! 0%nat = Some low /\ last entered_payload = Some high
    /\ (low <= point_x p /\ point_x p <= high)
    /\ point_size p = point_x p
    /\ point_y p ∈ yaxis_tickvals fig.
Proof.
  intros Hb Hfig Hp.
  apply get_scatter_chart_inv in Hfig as (low & high & cm & Hlo & Hhi & _ & ->).
  rewrite scatter_figure_points in Hp.
  apply elem_of_map in Hp as (r & -> & Hr).
  apply list_elem_of_filter in Hr as [[Hrange _] Hr].
  exists low, high. split; [done|]. split; [done|]. split; [done|].
  split; [done|]. simpl.
  unfold binary_class in Hb. rewrite Forall_forall in Hb.
  destruct (Hb r Hr) as [-> | ->]; [left|right; left].
Qed.

Lemma points_lie_within_the_controls_witness :
  let fig := update_yaxes (scatter_figure
               (filter (selected "A" 0 5000) scatter_example)
               (<["FT" := "#00CC96"]> (<["v1.1" := "#EF553B"]>
                  (<["v1.0" := "#636EFA"]> ∅)))
               (scatter_title "A")) in
  let p := mkPoint 3000 0 3000 in
  binary_class scatter_example
  /\ get_scatter_chart scatter_example "A" [0; 5000] = Ok fig
  /\ p ∈ scatter_points fig
  /\ exists low high,
       [0; 5000] !! 0%nat = Some low /\ last [0; 5000] = Some high
       /\ (low <= point_x p /\ point_x p <= high)
       /\ point_size p = point_x p
       /\ point_y p ∈ yaxis_tickvals fig.
Proof.
  intros fig p.
  assert (binary_class scatter_example) as Hb.
  { unfold binary_class, scatter_example. repeat constructor; simpl; lia. }
  assert (get_scatter_chart scatter_example "A" [0; 5000] = Ok fig) as H
    by reflexivity.
  assert (p ∈ scatter_points fig) as Hp.
  { vm_compute. apply list_elem_of_further, list_elem_of_here. }
  do 3 (split; [assumption|]).
  exact (points_lie_within_the_controls scatter_example "A" [0; 5000] fig p
           Hb H Hp).
Defined.

(** ** More on the pie charts *)

Lemma insert_desc_strongly {A} (key : A -> Z) (x : A) (l : list A) :
  StronglySorted (fun a b => key b <= key a) l ->
  StronglySorted (fun a b => key b <= key a) (insert_desc key x l).
Proof.
  induction 1 as [|y l Hl IH Hy]; simpl.
  - repeat constructor.
  - destruct (decide (key y <= key x)) as [Hle|Hgt].
    + constructor; [by constructor|]. constructor; [done|].
      eapply Forall_impl; [exact Hy|]. simpl. intros z Hz. lia.
    + constructor; [done|]. apply Forall_forall. intros z Hz.
      rewrite insert_desc_perm in Hz. apply elem_of_cons in Hz as [->|Hz].
      * lia.
      * rewrite Forall_forall in Hy. by apply Hy.
Qed.

Lemma sort_desc_strongly {A} (key : A -> Z) (l : list A) :
  StronglySorted (fun a b => key b <= key a) (sort_desc key l).
Proof.
  induction l as [|x l IH]; simpl; [constructor|].
  by apply insert_desc_strongly.
Qed.

(** X5.  The chart of all sites, on any data: the sectors come largest first and
    none has a negative value. *)
Theorem all_sites_sectors_largest_first (df : DataFrame) :
  exists fig,
    get_pie_chart df "ALL" = Ok fig
    /\ StronglySorted (fun a b => slice_value b <= slice_value a)
         (pie_slices fig)
    /\ Forall (fun s => 0 <= slice_value s) (pie_slices fig).
Proof.
  eexists. split; [apply get_pie_chart_all|]. unfold pie_slices. simpl. split.
  - apply sort_desc_strongly.
  - rewrite sort_desc_perm. apply Forall_forall. intros s Hs.
    by apply list_elem_of_filter in Hs as [Hpos _].
Qed.

Lemma value_at_perm (l : label) (cd1 cd2 : list Slice) :
  cd1 ≡ₚ cd2 -> value_at l cd1 = value_at l cd2.
Proof.
  intros Hperm. unfold value_at. apply sum_Z_perm, Permutation_map.
  by rewrite Hperm.
Qed.

Lemma outcome_count_nonneg (df : DataFrame) (site : string) (c : Z) :
  0 <= outcome_count df site c.
Proof. unfold outcome_count. lia. Qed.

(** X7.  The two kinds of pie chart agree: with a binary outcome column, what
    the chart of all sites draws for a site is what the chart of that site
    draws for Success, the number of successes of the site. *)
Theorem all_sites_sector_matches_site_chart (df : DataFrame) (site : string) :
  binary_class df -> site <> "ALL"%string ->
  exists fig_all fig_site,
    get_pie_chart df "ALL" = Ok fig_all
    /\ get_pie_chart df site = Ok fig_site
    /\ value_at (Some site) (pie_slices fig_all) = outcome_count df site 1
    /\ value_at (Some "Success"%string) (pie_slices fig_site)
       = outcome_count df site 1.
Proof.
  intros Hb Hsite.
  destruct (site_pie_slices df site Hsite)
    as (fig_site & extra & Hfig & _ & Hsl & _ & Hextra).
  rewrite (Hextra Hb), app_nil_r in Hsl.
  eexists. exists fig_site. split; [apply get_pie_chart_all|].
  split; [done|]. split.
  - rewrite (value_at_perm _ _ (pie_calc (site_rows df))).
    + unfold pie_calc. rewrite foldl_add_row_value_at.
      rewrite (site_rows_value _ _ Hb). unfold value_at. simpl. lia.
    + apply pie_slices_perm. simpl. apply Forall_forall. intros s Hs.
      destruct (site_rows_sectors df s Hb Hs) as (site' & _ & _ & ->).
      apply outcome_count_nonneg.
  - rewrite Hsl. unfold value_at, outcome_slices.
    pose proof (outcome_count_nonneg df site 1).
    destruct (decide (0 < outcome_count df site 1)),
      (decide (0 < outcome_count df site 0)); simpl; lia.
Qed.

Lemma all_sites_sector_matches_site_chart_witness :
  binary_class pie_example /\ "A"%string <> "ALL"%string
  /\ exists fig_all fig_site,
    get_pie_chart pie_example "ALL" = Ok fig_all
    /\ get_pie_chart pie_example "A" = Ok fig_site
    /\ value_at (Some "A"%string) (pie_slices fig_all)
       = outcome_count pie_example "A" 1
    /\ value_at (Some "Success"%string) (pie_slices fig_site)
       = outcome_count pie_example "A" 1.
Proof.
  assert (binary_class pie_example) as Hb.
  { unfold binary_class, pie_example. repeat constructor; simpl; lia. }
  assert ("A"%string <> "ALL"%string) as Hsite by discriminate.
  split; [exact Hb|]. split; [exact Hsite|].
  exact (all_sites_sector_matches_site_chart pie_example "A" Hb Hsite).
Defined.

Lemma add_row_nonneg (r : PieRow) (cd : list Slice) :
  0 <= row_value r -> Forall (fun s => 0 <= slice_value s) cd ->
  Forall (fun s => 0 <= slice_value s) (add_row r cd).
Proof.
  intros Hr. induction 1 as [|s cd Hs Hcd IH]; simpl.
  - by repeat constructor.
  - destruct (decide (slice_label s = row_label r)).
    + constructor; [simpl; lia|done].
    + by constructor.
Qed.

Lemma foldl_add_row_nonneg (rows : list PieRow) (cd : list Slice) :
  Forall (fun r => 0 <= row_value r) rows ->
  Forall (fun s => 0 <= slice_value s) cd ->
  Forall (fun s => 0 <= slice_value s)
    (foldl (fun cd r => add_row r cd) cd rows).
Proof.
  intros Hrows. revert cd.
  induction Hrows as [|r rows Hr _ IH]; intros cd Hcd; simpl; [done|].
  by apply IH, add_row_nonneg.
Qed.

Lemma pie_calc_nonneg (rows : list PieRow) :
  Forall (fun r => 0 <= row_value r) rows ->
  Forall (fun s => 0 <= slice_value s) (pie_calc rows).
Proof. intros Hrows. apply foldl_add_row_nonneg; [done|constructor]. Qed.

Lemma colored_rows_values (m : gmap label string) (frame : list (label * Z)) :
  map row_value (colored_rows m frame) = map snd frame.
Proof.
  unfold colored_rows. revert m.
  induction frame as [|row frame IH]; intros m; simpl; [done|].
  destruct (m !! fst row); simpl; by rewrite IH.
Qed.

(** Rearranging the rows by label loses and repeats none. *)
Lemma reorder_rows_perm (order_in : list label) (frame : list (label * Z)) :
  reorder_rows order_in frame ≡ₚ frame.
Proof.
  unfold reorder_rows.
  rewrite groups_perm by apply NoDup_filter, NoDup_unique.
  rewrite filter_all; [done|]. apply Forall_forall. intros row Hrow.
  assert (fst row ∈ unique (map fst frame)) as Hu
    by (apply elem_of_unique, elem_of_map; by exists row).
  apply list_elem_of_filter. split; [done|].
  apply elem_of_unique, elem_of_app. by right.
Qed.

Lemma count_occ_sum (s U : list Z) :
  sum_Z (map (fun v => count_occ v s) U)
  = Z.of_nat (length (flat_map (fun k => filter (fun y => y = k) s) U)).
Proof.
  induction U as [|k U IH]; simpl; [done|].
  rewrite IH, length_app. unfold count_occ. lia.
Qed.

(** The counts of [value_counts] add up to the length of the column. *)
Lemma value_counts_sum (s : list Z) :
  sum_Z (map snd (value_counts s)) = Z.of_nat (length s).
Proof.
  unfold value_counts.
  rewrite (sum_Z_perm _ _ (Permutation_map snd (sort_desc_perm snd _))).
  rewrite map_map. simpl. rewrite count_occ_sum. f_equal.
  apply Permutation_length.
  pose proof (groups_of_unique_perm (fun z : Z => z) s) as Hperm.
  by rewrite map_id in Hperm.
Qed.

Lemma value_counts_nonneg (s : list Z) :
  Forall (fun row => 0 <= snd row) (value_counts s).
Proof.
  apply Forall_forall. intros row Hrow.
  unfold value_counts in Hrow. rewrite sort_desc_perm in Hrow.
  apply elem_of_map in Hrow as (v & -> & _). unfold count_occ. simpl. lia.
Qed.

(** The sectors of the chart of a site account for every record of the
    site, whatever the outcome column holds. *)
Lemma site_pie_sum (df : DataFrame) (site : string) (fig : PieFigure) :
  site <> "ALL"%string -> get_pie_chart df site = Ok fig ->
  sum_Z (map slice_value (pie_slices fig))
  = Z.of_nat (length (filter (fun r => launch_site r = site) df)).
Proof.
  intros Hsite Hfig. rewrite (get_pie_chart_site _ _ Hsite) in Hfig.
  injection Hfig as <-.
  set (frame := reorder_rows pie_category_orders (site_frame df site)).
  assert (map snd frame ≡ₚ map snd (site_frame df site)) as Hvalues
    by (apply Permutation_map, reorder_rows_perm).
  assert (map snd (site_frame df site)
          = map snd (value_counts
                       (map class (filter (fun r => launch_site r = site) df))))
    as Hframe by (unfold site_frame; by rewrite map_map).
  set (fig := mkPie (colored_rows pie_color_map frame) false
                ("Total Success Launches for Site " +:+ site)).
  assert (Forall (fun s => 0 <= slice_value s) (pie_calc (pie_rows fig)))
    as Hpos.
  { simpl. apply pie_calc_nonneg.
    apply Forall_forall. intros r Hr.
    assert (row_value r ∈ map row_value (colored_rows pie_color_map frame))
      as Hv by (apply elem_of_map; by exists r).
    rewrite colored_rows_values, Hvalues, Hframe in Hv.
    apply elem_of_map in Hv as (row & -> & Hrow).
    pose proof (value_counts_nonneg
      (map class (filter (fun r => launch_site r = site) df))) as Hnn.
    rewrite Forall_forall in Hnn. by apply Hnn. }
  rewrite (sum_Z_perm _ _
             (Permutation_map slice_value (pie_slices_perm fig Hpos))).
  simpl. unfold pie_calc. rewrite foldl_add_row_sum. simpl.
  rewrite colored_rows_values, (sum_Z_perm _ _ Hvalues), Hframe.
  by rewrite value_counts_sum, length_map.
Qed.

(** X6.  The chart of a site on any data, binary outcome column or not: the
    sector Success is there exactly when the site has records of class 1,
    with their number as value and the first colour of the palette; the
    sector Failure likewise for class 0 and the second colour; Success
    comes before Failure; and the values of all sectors add up to the
    number of records of the site. *)
Theorem site_pie_on_any_data (df : DataFrame) (site : string) :
  site <> "ALL"%string ->
  exists fig,
    get_pie_chart df site = Ok fig
    /\ pie_title fig = ("Total Success Launches for Site " +:+ site)
    /\ (forall s, s ∈ pie_slices fig -> slice_label s = Some "Success"%string ->
          s = mkSlice (Some "Success") (outcome_count df site 1)
                (Some "#636EFA"))
    /\ (forall s, s ∈ pie_slices fig -> slice_label s = Some "Failure"%string ->
          s = mkSlice (Some "Failure") (outcome_count df site 0)
                (Some "#EF553B"))
    /\ (0 < outcome_count df site 1 <->
        exists s, s ∈ pie_slices fig /\ slice_label s = Some "Success"%string)
    /\ (0 < outcome_count df site 0 <->
        exists s, s ∈ pie_slices fig /\ slice_label s = Some "Failure"%string)
    /\ success_before_failure (pie_slices fig)
    /\ sum_Z (map slice_value (pie_slices fig))
       = Z.of_nat (length (filter (fun r => launch_site r = site) df)).
Proof.
  intros Hsite.
  destruct (site_pie_slices df site Hsite)
    as (fig & extra & Hfig & Htitle & Hsl & Hextra & _).
  exists fig. split; [done|]. split; [done|].
  rewrite Forall_forall in Hextra.
  assert (forall s, s ∈ pie_slices fig ->
            slice_label s = Some "Success"%string
            \/ slice_label s = Some "Failure"%string ->
            s ∈ outcome_slices (outcome_count df site 1)
                  (outcome_count df site 0)) as Hin.
  { intros s Hs Hl. rewrite Hsl in Hs. apply elem_of_app in Hs as [Hs|Hs]; [done|].
    destruct (Hextra s Hs). tauto. }
  split; [|split; [|split; [|split; [|split]]]].
  - intros s Hs Hl. specialize (Hin s Hs (or_introl Hl)).
    apply outcome_slices_elem in Hin as [[_ ->]|[_ ->]]; [done|discriminate Hl].
  - intros s Hs Hl. specialize (Hin s Hs (or_intror Hl)).
    apply outcome_slices_elem in Hin as [[_ ->]|[_ ->]]; [discriminate Hl|done].
  - split.
    + intros Hpos.
      exists (mkSlice (Some "Success") (outcome_count df site 1)
                (Some "#636EFA")).
      split; [|done].
      rewrite Hsl. apply elem_of_app. left. apply outcome_slices_elem. by left.
    + intros (s & Hs & Hl). specialize (Hin s Hs (or_introl Hl)).
      apply outcome_slices_elem in Hin as [[Hpos _]|[_ ->]];
        [done|discriminate Hl].
  - split.
    + intros Hpos.
      exists (mkSlice (Some "Failure") (outcome_count df site 0)
                (Some "#EF553B")).
      split; [|done].
      rewrite Hsl. apply elem_of_app. left. apply outcome_slices_elem. by right.
    + intros (s & Hs & Hl). specialize (Hin s Hs (or_intror Hl)).
      apply outcome_slices_elem in Hin as [[_ ->]|[Hpos _]];
        [discriminate Hl|done].
  - rewrite Hsl. apply outcome_slices_look. by apply Forall_forall.
  - by apply site_pie_sum.
Qed.

Lemma site_pie_on_any_data_witness :
  "A"%string <> "ALL"%string
  /\ exists fig,
    get_pie_chart pie_example "A" = Ok fig
    /\ (0 < outcome_count pie_example "A" 1 <->
        exists s, s ∈ pie_slices fig /\ slice_label s = Some "Success"%string)
    /\ sum_Z (map slice_value (pie_slices fig))
       = Z.of_nat (length (filter (fun r => launch_site r = "A"%string)
                             pie_example)).
Proof.
  assert ("A"%string <> "ALL"%string) as Hsite by discriminate.
  split; [exact Hsite|].
  destruct (site_pie_on_any_data pie_example "A" Hsite)
    as (fig & Hfig & _ & _ & _ & Hs & _ & _ & Hsum).
  exists fig. split; [exact Hfig|]. split; [exact Hs|exact Hsum].
Defined.

(** X4.  Every entry of the site drop-down other than the "ALL" entry shows a
    launch site under its own name, and choosing it gives a pie chart with
    at least one sector. *)
Theorem every_offered_site_has_sectors (df : DataFrame) (shown value : string) :
  (shown, value) ∈ options df -> value <> "ALL"%string ->
  shown = value
  /\ value ∈ map launch_site df
  /\ exists fig, get_pie_chart df value = Ok fig /\ pie_slices fig <> [].
Proof.
  intros Hopt Hvalue. unfold options in Hopt.
  apply elem_of_app in Hopt as [Hopt|Hopt].
  { apply list_elem_of_singleton in Hopt. by injection Hopt as -> ->. }
  apply elem_of_map in Hopt as (site & [= -> ->] & Hsite).
  apply elem_of_launch_sites in Hsite as (r & Hr & Hrs).
  split; [done|]. split; [apply elem_of_map; by exists r|].
  destruct (get_pie_chart_total df site) as [fig Hfig].
  exists fig. split; [done|]. intros Hnil.
  pose proof (site_pie_sum df site fig Hvalue Hfig) as Hsum.
  rewrite Hnil in Hsum. simpl in Hsum.
  assert (r ∈ filter (fun r => launch_site r = site) df) as Hin
    by (by apply list_elem_of_filter).
  destruct (filter (fun r => launch_site r = site) df);
    [by apply elem_of_nil in Hin|]. simpl in Hsum. lia.
Qed.

Lemma every_offered_site_has_sectors_witness :
  (("B", "B")%string ∈ options pie_example) /\ "B"%string <> "ALL"%string
  /\ "B"%string = "B"%string
  /\ ("B"%string ∈ map launch_site pie_example)
  /\ exists fig, get_pie_chart pie_example "B" = Ok fig /\ pie_slices fig <> [].
Proof.
  assert (("B", "B")%string ∈ options pie_example) as Hopt.
  { vm_compute. do 2 apply list_elem_of_further. apply list_elem_of_here. }
  assert ("B"%string <> "ALL"%string) as Hvalue by discriminate.
  split; [exact Hopt|]. split; [exact Hvalue|].
  exact (every_offered_site_has_sectors pie_example "B" "B" Hopt Hvalue).
Defined.

(** ** Sessions *)

Lemma extends_holds_dataset (st st' : store) (df : DataFrame) :
  extends st st' -> holds_dataset st df -> holds_dataset st' df.
Proof.
  intros [Hg [k Hk]] Hdf. unfold holds_dataset in *. rewrite Hg, Hk.
  by apply lookup_app_l_Some.
Qed.

Lemma fire_extends (c : callback) (st : store) : extends st (fire c st).
Proof.
  destruct c as [site|site range]; simpl.
  - apply (keeps_get_pie_chart_st st site st (extends_refl st)).
  - apply (keeps_get_scatter_chart_st st site range st (extends_refl st)).
Qed.

Lemma session_keeps_dataset (cs : list callback) (st : store) (df : DataFrame) :
  holds_dataset st df ->
  holds_dataset (session cs st) df
  /\ st_globals (session cs st) = st_globals st.
Proof.
  revert st. induction cs as [|c cs IH]; intros st Hdf; simpl; [done|].
  pose proof (fire_extends c st) as Hext.
  destruct (IH (fire c st) (extends_holds_dataset _ _ _ Hext Hdf)) as [Hh Hg].
  split; [done|]. rewrite Hg. apply Hext.
Qed.

(** X18.  What a callback returns does not depend on what was shown before:
    after any session, however long and whether its callbacks returned or
    raised, the store still holds the data set and its summaries, and each
    callback returns the figure (or raises the error) that it gives on the
    data set as loaded. *)
Theorem callbacks_do_not_depend_on_the_session (df : DataFrame)
    (cs : list callback) (entered_site : string) (entered_payload : list Z) :
  let st := session cs (initial_store df) in
  holds_dataset st df
  /\ st_globals st = st_globals (initial_store df)
  /\ (get_pie_chart_st entered_site st).1 = get_pie_chart df entered_site
  /\ (get_scatter_chart_st entered_site entered_payload st).1
     = get_scatter_chart df entered_site entered_payload.
Proof.
  assert (holds_dataset (initial_store df) df) as Hinit by reflexivity.
  destruct (session_keeps_dataset cs _ _ Hinit) as [Hh Hg]. simpl.
  split; [done|]. split; [done|]. split.
  - by apply get_pie_chart_st_result.
  - by apply get_scatter_chart_st_result.
Qed.

(** ** Edges of the inputs *)

(** X3.  The values of the drop-down entries are pairwise different exactly when
    no launch site is itself called "ALL"; the value "ALL" always stands
    first. *)
Theorem option_values_distinct_iff (df : DataFrame) :
  map snd (options df) = "ALL"%string :: launch_sites df
  /\ (NoDup (map snd (options df)) <-> "ALL"%string ∉ map launch_site df).
Proof.
  assert (map snd (options df) = "ALL"%string :: launch_sites df) as Hvalues.
  { unfold options. simpl. f_equal. rewrite map_map. simpl. apply map_id. }
  split; [done|]. rewrite Hvalues, NoDup_cons.
  assert ("ALL"%string ∈ launch_sites df <-> "ALL"%string ∈ map launch_site df)
    as Hiff.
  { rewrite elem_of_launch_sites, elem_of_map.
    split; intros (r & ? & ?); exists r; by split. }
  split.
  - intros [Hall _]. by rewrite <- Hiff.
  - intros Hall. split; [by rewrite Hiff|].
    unfold launch_sites. rewrite sorted_perm. apply NoDup_unique.
Qed.

(** X14.  A site value that names no launch site is not an error for the scatter
    chart either: with a range list that is not empty and a palette that
    covers the data set, the chart comes back without traces. *)
Theorem unknown_site_gives_empty_scatter (df : DataFrame)
    (entered_site : string) (entered_payload : list Z) :
  palette_covers df -> entered_payload <> [] ->
  entered_site <> "ALL"%string -> entered_site ∉ launch_sites df ->
  exists fig,
    get_scatter_chart df entered_site entered_payload = Ok fig
    /\ traces fig = []
    /\ scatter_title_text fig
       = ("Correlation between Payload and Success for site " +:+ entered_site).
Proof.
  intros Hp Hne Hall Hsite.
  destruct entered_payload as [|low rest]; [done|].
  destruct (last (low :: rest)) as [high|] eqn:Hhi; [|by apply last_None in Hhi].
  assert (filter (selected entered_site low high) df = []) as Hnil.
  { apply filter_none, Forall_forall. intros r Hr [_ [Hs|Hs]]; [done|].
    apply Hsite, elem_of_launch_sites. by exists r. }
  destruct (get_scatter_chart_ok df entered_site (low :: rest) low high Hp
              (nothing_selected_accepted _ _ _ _ Hnil))
    as (cm & _ & Hfig); [done..|].
  eexists. split; [exact Hfig|]. simpl. split.
  - by rewrite Hnil.
  - unfold scatter_title. by rewrite decide_False.
Qed.

Lemma unknown_site_gives_empty_scatter_witness :
  palette_covers scatter_example /\ [0; 5000] <> []
  /\ "C"%string <> "ALL"%string /\ ("C"%string ∉ launch_sites scatter_example)
  /\ exists fig,
    get_scatter_chart scatter_example "C" [0; 5000] = Ok fig
    /\ traces fig = []
    /\ scatter_title_text fig
       = "Correlation between Payload and Success for site C"%string.
Proof.
  assert (palette_covers scatter_example) as Hp
    by (unfold palette_covers; simpl; lia).
  assert ([0; 5000] <> []) as Hne by discriminate.
  assert ("C"%string <> "ALL"%string) as Hall by discriminate.
  assert ("C"%string ∉ launch_sites scatter_example) as Hsite.
  { vm_compute. intros Hin.
    repeat (apply elem_of_cons in Hin as [Hin|Hin]; [discriminate Hin|]).
    by apply elem_of_nil in Hin. }
  do 4 (split; [assumption|]).
  exact (unknown_site_gives_empty_scatter scatter_example "C" [0; 5000]
           Hp Hne Hall Hsite).
Defined.

(** X16.  On an empty data set nothing fails as long as the range list is not
    empty: both pie charts come back without sectors and the scatter chart
    without traces, for every site value. *)
Theorem empty_dataset_gives_empty_charts (entered_site : string)
    (entered_payload : list Z) :
  (exists fig, get_pie_chart [] entered_site = Ok fig /\ pie_slices fig = [])
  /\ (entered_payload <> [] ->
      exists fig, get_scatter_chart [] entered_site entered_payload = Ok fig
                  /\ traces fig = []).
Proof.
  split.
  - unfold get_pie_chart.
    destruct (decide (entered_site = "ALL"%string)); eexists; by split.
  - intros Hne. destruct entered_payload as [|low rest]; [done|].
    destruct (last (low :: rest)) as [high|] eqn:Hhi;
      [|by apply last_None in Hhi].
    assert (palette_covers []) as Hp by (unfold palette_covers; simpl; lia).
    destruct (get_scatter_chart_ok [] entered_site (low :: rest) low high Hp
                (nothing_selected_accepted [] _ _ _ eq_refl))
      as (cm & _ & Hfig); [done..|].
    eexists. by split.
Qed.

(** X15.  When every record within the payload range was launched from one site,
    the chart of that site and the chart of all sites fare alike: when the
    chart of all sites comes back, so does the chart of the site, with the
    same traces (names, colours and points), and when the chart of all
    sites raises, the chart of the site raises the same exception. *)
Theorem only_site_in_range_is_all_sites (df : DataFrame) (site : string)
    (low high : Z) :
  (forall r, r ∈ df -> low <= payload_mass r /\ payload_mass r <= high ->
             launch_site r = site) ->
  (forall fig_all,
     get_scatter_chart df "ALL" [low; high] = Ok fig_all ->
     exists fig_site,
       get_scatter_chart df site [low; high] = Ok fig_site
       /\ traces fig_site = traces fig_all)
  /\ (forall e,
        get_scatter_chart df "ALL" [low; high] = Raise e ->
        get_scatter_chart df site [low; high] = Raise e).
Proof.
  intros Honly.
  assert (filter (selected site low high) df
          = filter (selected "ALL" low high) df) as Hsame.
  { apply filter_iff. intros r Hr. unfold selected. split.
    - intros [Hrange _]. split; [done|by left].
    - intros [Hrange _]. split; [done|]. right. by apply Honly. }
  rewrite !(get_scatter_chart_unfold df _ [low; high] low high) by done.
  rewrite Hsame.
  destruct (color_map_loop _ _ _) as [cm|e']; simpl.
  - unfold px_scatter. simpl.
    destruct (decide _) as [Hv|Hv]; simpl.
    + split; [|intros e He; discriminate He].
      intros fig_all [= <-]. eexists. by split.
    + split; [intros fig_all Hf; discriminate Hf|done].
  - split; [intros fig_all Hf; discriminate Hf|done].
Qed.

Lemma only_site_in_range_is_all_sites_witness :
  (forall r, r ∈ scatter_example ->
     5000 <= payload_mass r /\ payload_mass r <= 7000 ->
     launch_site r = "A"%string)
  /\ exists fig_site,
       get_scatter_chart scatter_example "A" [5000; 7000] = Ok fig_site
       /\ traces fig_site = [mkTrace "FT" "#00CC96" [mkPoint 6000 1 6000]].
Proof.
  assert (forall r, r ∈ scatter_example ->
            5000 <= payload_mass r /\ payload_mass r <= 7000 ->
            launch_site r = "A"%string) as Honly.
  { intros r Hr Hrange. unfold scatter_example in Hr.
    repeat (apply elem_of_cons in Hr as [->|Hr]; [simpl in *; first [done|lia]|]).
    by apply elem_of_nil in Hr. }
  split; [exact Honly|].
  exact (proj1 (only_site_in_range_is_all_sites scatter_example "A" 5000 7000
                  Honly)
           (update_yaxes (scatter_figure
              (filter (selected "ALL" 5000 7000) scatter_example)
              (<["FT" := "#00CC96"]> (<["v1.1" := "#EF553B"]>
                 (<["v1.0" := "#636EFA"]> ∅)))
              (scatter_title "ALL")))
           eq_refl).
Defined.


